(** * KILT sdk-js: message envelope and record codecs

    A shallow embedding of
      - [src/messaging/Message.ts]             (module [Message]),
      - the attestation codec [Attestation.utils] (module [AttestationUtils]),
      - the quote codecs [Quote.utils]          (module [QuoteUtils]),
      - the claim class [Claim.ts]              (module [Claim]),
    followed by the properties of the specification that concern them.

    JavaScript values are an inductive type; a [throw] is the [Throw]
    constructor of the [Result] monad; calls to the external collaborators
    (hash, signature, asymmetric box, JSON) are fields of a type class and
    are recorded in a call trace, so that the order of the calls of
    [Message.decrypt] is a fact about the model. *)

From Stdlib Require Import String Ascii List ZArith Bool Lia.
From Stdlib Require Import DecimalString.
From ExtLib Require Import Structures.Monad.
Import ListNotations.
Import MonadNotation.
Local Open Scope string_scope.
Local Open Scope monad_scope.

Set Implicit Arguments.
Set Warnings "-register-all".

(* ===================================================================== *)
(** ** JavaScript values *)
(* ===================================================================== *)

Module JS.

(** The values the codec and JSON handle.  Numbers are kept to the
    integers: no arithmetic is done on them, only truthiness and
    equality.  An object is the list of its own properties, in insertion
    order. *)
Inductive value : Type :=
| VUndefined
| VNull
| VBool (b : bool)
| VNum (n : Z)
| VStr (s : string)
| VArr (items : list value)
| VObj (props : list (string * value)).

(** [!!v] *)
Definition truthy (v : value) : bool :=
  match v with
  | VUndefined | VNull => false
  | VBool b => b
  | VNum n => negb (n =? 0)%Z
  | VStr s => negb (s =? EmptyString)
  | VArr _ | VObj _ => true
  end.

(** [!v] *)
Definition falsy (v : value) : bool := negb (truthy v).

(** [typeof v] *)
Definition typeof (v : value) : string :=
  match v with
  | VUndefined => "undefined"
  | VNull => "object"
  | VBool _ => "boolean"
  | VNum _ => "number"
  | VStr _ => "string"
  | VArr _ | VObj _ => "object"
  end.

(** [a === b] where at least one side is a primitive.  Two arrays or two
    objects are compared by reference in JavaScript; the model never
    compares two of them, and answers [false] there. *)
Definition strict_equals (a b : value) : bool :=
  match a, b with
  | VUndefined, VUndefined => true
  | VNull, VNull => true
  | VBool x, VBool y => Bool.eqb x y
  | VNum x, VNum y => (x =? y)%Z
  | VStr x, VStr y => (x =? y)
  | _, _ => false
  end.

(** [Array.isArray(v)] *)
Definition isArray (v : value) : bool :=
  match v with VArr _ => true | _ => false end.

(** [arr[i]]: [undefined] past the end. *)
Definition index (items : list value) (i : nat) : value :=
  nth i items VUndefined.

Fixpoint lookup (k : string) (props : list (string * value)) : value :=
  match props with
  | [] => VUndefined
  | (k', v) :: rest => if k' =? k then v else lookup k rest
  end.

End JS.
Import JS.

(* ===================================================================== *)
(** ** Errors and the exception monad *)
(* ===================================================================== *)

Module SDKErrors.

(** The constructors of [SDKErrors] the embedded code raises, with the
    arguments the code passes.  [ERROR_COMPRESS_OBJECT] is also given the
    rejected object, which is the argument of the function that raises
    it; the model keeps the name of the record type. *)
Inductive SDKError : Type :=
| ERROR_CTYPE_HASH_NOT_PROVIDED
| ERROR_CLAIM_HASH_NOT_PROVIDED
| ERROR_OWNER_NOT_PROVIDED
| ERROR_DELEGATION_ID_TYPE
| ERROR_REVOCATION_BIT_MISSING
| ERROR_COMPRESS_OBJECT (type : string)
| ERROR_DECOMPRESSION_ARRAY (type : option string)
| ERROR_CLAIM_UNVERIFIABLE
| ERROR_NESTED_CLAIM_UNVERIFIABLE
| ERROR_IDENTITY_MISMATCH (context type : string)
| ERROR_NONCE_HASH_INVALID (hash nonce : string) (type : string)
| ERROR_DECODING_MESSAGE
| ERROR_PARSING_MESSAGE
| ERROR_MESSAGE_BODY_MALFORMED.

End SDKErrors.
Import SDKErrors.

(** Everything a [throw] can carry in the embedded code. *)
Inductive Exn : Type :=
| SDK (e : SDKError)
| DataUtilsError (validator : string) (name : string)
    (** raised inside a validator of [DataUtils] or [ClaimUtils], whose
        sources are external; [validator] names the function *)
| TypeError
| SyntaxError.

Inductive Result (A : Type) : Type :=
| Ok (a : A)
| Throw (e : Exn).
Arguments Ok {A} a.
Arguments Throw {A} e.

#[global] Instance Monad_Result : Monad Result :=
  {| ret := fun _ a => Ok a;
     bind := fun _ _ m k => match m with Ok a => k a | Throw e => Throw e end |}.

Definition throw {A} (e : SDKError) : Result A := Throw (SDK e).

(** The error taxonomy of the specification (section 7). *)
Inductive ErrorKind : Type :=
| MalformedRecord | ArrayShapeMismatch | UnknownMessageKind | IntegrityError
| SignatureError | DecryptionError | PayloadParseError | IdentityMismatch.

(** The validators of [DataUtils]: each returns, or throws. *)
Class DataUtils : Type :=
  { validateHash_ok : value -> string -> bool;
    validateAddress_ok : value -> string -> bool;
    validateSignature_ok : string -> string -> string -> bool }.

Section Validators.
Context {DU : DataUtils}.

Definition validateHash (hash : value) (name : string) : Result unit :=
  if validateHash_ok hash name then Ok tt
  else Throw (DataUtilsError "validateHash" name).

Definition validateAddress (address : value) (name : string) : Result unit :=
  if validateAddress_ok address name then Ok tt
  else Throw (DataUtilsError "validateAddress" name).

Definition validateSignature (data signature address : string) : Result unit :=
  if validateSignature_ok data signature address then Ok tt
  else Throw (DataUtilsError "validateSignature" address).
End Validators.

(* ===================================================================== *)
(** ** Attestation.utils *)
(* ===================================================================== *)

Module AttestationUtils.

Record IAttestation : Type :=
  { claimHash : value;
    cTypeHash : value;
    owner : value;
    revoked : value;
    delegationId : value }.

(** The guard of the third check of [errorCheck], as it parses:
    [(typeof d !== 'string') && ((!d) === null)]. *)
Definition delegationId_guard (d : value) : bool :=
  negb (typeof d =? "string") && strict_equals (VBool (falsy d)) VNull.

Section WithValidators.
Context {DU : DataUtils}.

Definition errorCheck (input : IAttestation) : Result unit :=
  (if falsy (cTypeHash input) then throw ERROR_CTYPE_HASH_NOT_PROVIDED
   else validateHash (cTypeHash input) "CType") ;;
  (if falsy (claimHash input) then throw ERROR_CLAIM_HASH_NOT_PROVIDED
   else validateHash (claimHash input) "Claim") ;;
  (if delegationId_guard (delegationId input)
   then throw ERROR_DELEGATION_ID_TYPE else ret tt) ;;
  (if falsy (owner input) then throw ERROR_OWNER_NOT_PROVIDED
   else validateAddress (owner input) "owner") ;;
  (if negb (typeof (revoked input) =? "boolean")
   then throw ERROR_REVOCATION_BIT_MISSING else ret tt).

Definition compress (attestation : IAttestation) : Result value :=
  errorCheck attestation ;;
  ret (VArr [ claimHash attestation;
              cTypeHash attestation;
              owner attestation;
              revoked attestation;
              delegationId attestation ]).
End WithValidators.

Definition decompress (attestation : value) : Result IAttestation :=
  match attestation with
  | VArr a =>
      if negb (length a =? 5)%nat
      then throw (ERROR_DECOMPRESSION_ARRAY (Some "Attestation"))
      else ret {| claimHash := index a 0;
                  cTypeHash := index a 1;
                  owner := index a 2;
                  revoked := index a 3;
                  delegationId := index a 4 |}
  | _ => throw (ERROR_DECOMPRESSION_ARRAY (Some "Attestation"))
  end.

End AttestationUtils.

(* ===================================================================== *)
(** ** Quote.utils *)
(* ===================================================================== *)

Module QuoteUtils.

Record ICostBreakdown : Type :=
  { gross : value; net : value; tax : value }.

(** [cost] is [None] when the property is absent. *)
Record IQuote : Type :=
  { attesterAddress : value;
    cTypeHash : value;
    cost : option ICostBreakdown;
    currency : value;
    termsAndConditions : value;
    timeframe : value }.

(** [IQuoteAttesterSigned extends IQuote] *)
Record IQuoteAttesterSigned : Type :=
  { quote : IQuote;
    attesterSignature : value }.

(** [IQuoteAgreement extends IQuoteAttesterSigned] *)
Record IQuoteAgreement : Type :=
  { signedQuote : IQuoteAttesterSigned;
    claimerSignature : value;
    rootHash : value }.

(** [!quote.cost] *)
Definition absent {A} (o : option A) : bool :=
  match o with None => true | Some _ => false end.

Definition compressCost (cost : ICostBreakdown) : Result value :=
  if falsy (gross cost) || falsy (net cost) || falsy (tax cost)
  then throw (ERROR_COMPRESS_OBJECT "Cost Breakdown")
  else ret (VArr [gross cost; net cost; tax cost]).

(** [compressCost(q.cost)]: reading a property of an absent cost is a
    [TypeError]. *)
Definition compressCost_of (c : option ICostBreakdown) : Result value :=
  match c with
  | Some cost => compressCost cost
  | None => Throw TypeError
  end.

Definition decompressCost (cost : value) : Result ICostBreakdown :=
  match cost with
  | VArr c =>
      if negb (length c =? 3)%nat
      then throw (ERROR_DECOMPRESSION_ARRAY (Some "Cost Breakdown"))
      else ret {| gross := index c 0; net := index c 1; tax := index c 2 |}
  | _ => throw (ERROR_DECOMPRESSION_ARRAY (Some "Cost Breakdown"))
  end.

Definition quote_fields_missing (q : IQuote) : bool :=
  falsy (attesterAddress q) || falsy (cTypeHash q) || absent (cost q)
  || falsy (currency q) || falsy (termsAndConditions q)
  || falsy (timeframe q).

Definition compressQuote (quote : IQuote) : Result value :=
  if quote_fields_missing quote
  then throw (ERROR_COMPRESS_OBJECT "Quote")
  else
    c <- compressCost_of (cost quote) ;;
    ret (VArr [ attesterAddress quote; cTypeHash quote; c;
                currency quote; termsAndConditions quote;
                timeframe quote ]).

Definition decompressQuote (quote : value) : Result IQuote :=
  match quote with
  | VArr q =>
      if negb (length q =? 6)%nat
      then throw (ERROR_DECOMPRESSION_ARRAY None)
      else
        c <- decompressCost (index q 2) ;;
        ret {| attesterAddress := index q 0;
               cTypeHash := index q 1;
               cost := Some c;
               currency := index q 3;
               termsAndConditions := index q 4;
               timeframe := index q 5 |}
  | _ => throw (ERROR_DECOMPRESSION_ARRAY None)
  end.

Definition compressAttesterSignedQuote
    (attesterSignedQuote : IQuoteAttesterSigned) : Result value :=
  let q := quote attesterSignedQuote in
  if quote_fields_missing q || falsy (attesterSignature attesterSignedQuote)
  then throw (ERROR_COMPRESS_OBJECT "Attester Signed Quote")
  else
    c <- compressCost_of (cost q) ;;
    ret (VArr [ attesterAddress q; cTypeHash q; c; currency q;
                termsAndConditions q; timeframe q;
                attesterSignature attesterSignedQuote ]).

Definition decompressAttesterSignedQuote
    (attesterSignedQuote : value) : Result IQuoteAttesterSigned :=
  match attesterSignedQuote with
  | VArr q =>
      if negb (length q =? 7)%nat
      then throw (ERROR_DECOMPRESSION_ARRAY None)
      else
        c <- decompressCost (index q 2) ;;
        ret {| quote := {| attesterAddress := index q 0;
                           cTypeHash := index q 1;
                           cost := Some c;
                           currency := index q 3;
                           termsAndConditions := index q 4;
                           timeframe := index q 5 |};
               attesterSignature := index q 6 |}
  | _ => throw (ERROR_DECOMPRESSION_ARRAY None)
  end.

Definition compressQuoteAgreement
    (quoteAgreement : IQuoteAgreement) : Result value :=
  let s := signedQuote quoteAgreement in
  let q := quote s in
  if quote_fields_missing q || falsy (attesterSignature s)
  then throw (ERROR_COMPRESS_OBJECT "Quote Agreement")
  else
    c <- compressCost_of (cost q) ;;
    ret (VArr [ attesterAddress q; cTypeHash q; c; currency q;
                termsAndConditions q; timeframe q;
                attesterSignature s;
                claimerSignature quoteAgreement;
                rootHash quoteAgreement ]).

Definition decompressQuoteAgreement
    (quoteAgreement : value) : Result IQuoteAgreement :=
  match quoteAgreement with
  | VArr q =>
      if negb (length q =? 9)%nat
      then throw (ERROR_DECOMPRESSION_ARRAY None)
      else
        c <- decompressCost (index q 2) ;;
        ret {| signedQuote :=
                 {| quote := {| attesterAddress := index q 0;
                                cTypeHash := index q 1;
                                cost := Some c;
                                currency := index q 3;
                                termsAndConditions := index q 4;
                                timeframe := index q 5 |};
                    attesterSignature := index q 6 |};
               claimerSignature := index q 7;
               rootHash := index q 8 |}
  | _ => throw (ERROR_DECOMPRESSION_ARRAY None)
  end.

End QuoteUtils.

(* ===================================================================== *)
(** ** Claim.ts *)
(* ===================================================================== *)

Module Claim.

Record IClaim : Type :=
  { cTypeHash : value;
    contents : value;
    owner : value }.

(** The two properties of a CType the class reads. *)
Record ICType : Type :=
  { hash : value;
    schema : value }.

(** An instance of the class: it only exists as the result of [new]. *)
Record Claim : Type :=
  { this_cTypeHash : value;
    this_contents : value;
    this_owner : value }.

(** [CTypeUtils] and [ClaimUtils] are external to the class. *)
Class Validators : Type :=
  { verifyClaimStructure : value -> value -> bool;
    validateNestedSchemas : value -> list value -> value -> bool;
    errorCheck_ok : IClaim -> bool }.

Section WithValidators.
Context {V : Validators}.

Definition errorCheck (input : IClaim) : Result unit :=
  if errorCheck_ok input then Ok tt
  else Throw (DataUtilsError "ClaimUtils.errorCheck" "Claim").

Definition verifyClaim (claimContents cTypeSchema : value) : bool :=
  verifyClaimStructure claimContents cTypeSchema.

(** [new Claim(claimInput)] *)
Definition constructor (claimInput : IClaim) : Result Claim :=
  errorCheck claimInput ;;
  ret {| this_cTypeHash := cTypeHash claimInput;
         this_contents := contents claimInput;
         this_owner := owner claimInput |}.

Definition fromClaim (claimInput : IClaim) (cTypeSchema : value)
  : Result Claim :=
  if negb (verifyClaim (contents claimInput) cTypeSchema)
  then throw ERROR_CLAIM_UNVERIFIABLE
  else constructor claimInput.

Definition fromNestedCTypeClaim (cTypeInput : ICType)
    (nestedCType : list value) (claimContents claimOwner : value)
  : Result Claim :=
  if negb (validateNestedSchemas (schema cTypeInput) nestedCType
             claimContents)
  then throw ERROR_NESTED_CLAIM_UNVERIFIABLE
  else constructor {| cTypeHash := hash cTypeInput;
                      contents := claimContents;
                      owner := claimOwner |}.

Definition fromCTypeAndClaimContents (ctypeInput : ICType)
    (claimContents claimOwner : value) : Result Claim :=
  (if truthy (schema ctypeInput)
   then (if negb (verifyClaim claimContents (schema ctypeInput))
         then throw ERROR_CLAIM_UNVERIFIABLE else ret tt)
   else ret tt) ;;
  constructor {| cTypeHash := hash ctypeInput;
                 contents := claimContents;
                 owner := claimOwner |}.
(** [Claim.isIClaim(input)]: [errorCheck] in a [try], [false] on a throw. *)
Definition isIClaim (input : IClaim) : bool :=
  match errorCheck input with
  | Ok _ => true
  | Throw _ => false
  end.
End WithValidators.

End Claim.

(* ===================================================================== *)
(** ** Calls to collaborators, recorded *)
(* ===================================================================== *)

(** One entry per call that [Message.decrypt] makes, with its arguments. *)
Inductive Call : Type :=
| Call_hashStr (input : string)
| Call_validateSignature (data signature address : string)
| Call_decryptAsymmetricAsStr (box nonce senderBoxPublicKey : string)
| Call_JSON_parse (text : string)
| Call_ensureOwnerIsSender (body : value) (senderAddress : string).

(** A computation that may throw, together with the calls it made up to
    its return or its throw. *)
Definition Traced (A : Type) : Type := (list Call * Result A)%type.

#[global] Instance Monad_Traced : Monad Traced :=
  {| ret := fun _ a => ([], Ok a);
     bind := fun _ _ m k =>
       match m with
       | (t, Ok a) => let (t', r) := k a in ((t ++ t')%list, r)
       | (t, Throw e) => (t, Throw e)
       end |}.

Definition calls {A} (m : Traced A) : list Call := fst m.
Definition outcome {A} (m : Traced A) : Result A := snd m.

(** Perform a call whose result is [r]. *)
Definition call {A} (c : Call) (r : Result A) : Traced A := ([c], r).

Definition traced_throw {A} (e : SDKError) : Traced A := ([], Throw (SDK e)).

(** [try { m } catch (error) { h error }] *)
Definition traced_try_catch {A} (m : Traced A) (h : Exn -> Traced A)
  : Traced A :=
  match m with
  | (t, Ok a) => (t, Ok a)
  | (t, Throw e) => let (t', r) := h e in ((t ++ t')%list, r)
  end.

(* ===================================================================== *)
(** ** Message.ts *)
(* ===================================================================== *)

(** [v.k] on a value that came out of [JSON.parse]: reading a property of
    [undefined] or [null] is a [TypeError]; a primitive or an array has none
    of the property names the code reads. *)
Definition get (v : value) (k : string) : Result value :=
  match v with
  | VUndefined | VNull => Throw TypeError
  | VObj props => Ok (lookup k props)
  | VBool _ | VNum _ | VStr _ | VArr _ => Ok VUndefined
  end.

(** [v.forEach(f)]: only an array has the method. *)
Definition forEach (v : value) (f : value -> Result unit) : Result unit :=
  match v with
  | VArr items =>
      (fix each (l : list value) : Result unit :=
         match l with
         | [] => ret tt
         | x :: rest => f x ;; each rest
         end) items
  | _ => Throw TypeError
  end.

(** [String(n)] for an integer below 10^21 in magnitude, as a timestamp in
    milliseconds is: all its digits, no exponent. *)
Definition Number_toString (n : Z) : string :=
  NilZero.string_of_int (Z.to_int n).

Module Message.

Inductive MessageBodyType : Type :=
| REQUEST_TERMS | SUBMIT_TERMS | REJECT_TERMS
| INITIATE_ATTESTATION
| REQUEST_ATTESTATION_FOR_CLAIM | SUBMIT_ATTESTATION_FOR_CLAIM
| REJECT_ATTESTATION_FOR_CLAIM
| REQUEST_CLAIMS_FOR_CTYPES | SUBMIT_CLAIMS_FOR_CTYPES_CLASSIC
| SUBMIT_CLAIMS_FOR_CTYPES_PE | ACCEPT_CLAIMS_FOR_CTYPES
| REJECT_CLAIMS_FOR_CTYPES
| REQUEST_ACCEPT_DELEGATION | SUBMIT_ACCEPT_DELEGATION
| REJECT_ACCEPT_DELEGATION | INFORM_CREATE_DELEGATION.

(** The string each member of the enum stands for. *)
Definition tag (t : MessageBodyType) : string :=
  match t with
  | REQUEST_TERMS => "request-terms"
  | SUBMIT_TERMS => "submit-terms"
  | REJECT_TERMS => "reject-terms"
  | INITIATE_ATTESTATION => "initiate-attestation"
  | REQUEST_ATTESTATION_FOR_CLAIM => "request-attestation-for-claim"
  | SUBMIT_ATTESTATION_FOR_CLAIM => "submit-attestation-for-claim"
  | REJECT_ATTESTATION_FOR_CLAIM => "reject-attestation-for-claim"
  | REQUEST_CLAIMS_FOR_CTYPES => "request-claims-for-ctypes"
  | SUBMIT_CLAIMS_FOR_CTYPES_CLASSIC => "submit-claims-for-ctypes-classic"
  | SUBMIT_CLAIMS_FOR_CTYPES_PE => "submit-claims-for-ctypes-pe"
  | ACCEPT_CLAIMS_FOR_CTYPES => "accept-claims-for-ctypes"
  | REJECT_CLAIMS_FOR_CTYPES => "reject-claims-for-ctypes"
  | REQUEST_ACCEPT_DELEGATION => "request-accept-delegation"
  | SUBMIT_ACCEPT_DELEGATION => "submit-accept-delegation"
  | REJECT_ACCEPT_DELEGATION => "reject-accept-delegation"
  | INFORM_CREATE_DELEGATION => "inform-create-delegation"
  end.

(** [case t:] of a [switch (v)] *)
Definition is_case (v : value) (t : MessageBodyType) : bool :=
  strict_equals v (VStr (tag t)).

Record IEncryptedMessage : Type :=
  { messageId : option string;
    receivedAt : option Z;
    message : string;
    nonce : string;
    createdAt : Z;
    hash : string;
    signature : string;
    receiverAddress : string;
    senderAddress : string;
    senderBoxPublicKey : string }.

(** A message with its body: the object [{...encrypted, body}] that
    [decrypt] returns, and equally an instance of the class, whose fields
    are [body] and the ten that [encrypt()] projects. *)
Record IMessage : Type :=
  { body : value;
    wire : IEncryptedMessage }.

Record IPublicIdentity : Type :=
  { address : string;
    boxPublicKeyAsHex : string }.

(** The identity object, the [Crypto] module, [JSON] and [Message.utils].
    Each field gives what the call returns; a call that throws from inside
    the provider, the box on a key or nonce of the wrong size for one, is
    not among the runs described. *)
Class Collaborators : Type :=
  { Identity : Type;
    identity_address : Identity -> string;
    getBoxPublicKey : Identity -> string;
    encryptAsymmetricAsStr : Identity -> string -> string -> string * string;
    decryptAsymmetricAsStr :
      Identity -> string * string -> string -> option string;
    signStr : Identity -> string -> string;
    hashStr : string -> string;
    JSON_stringify : value -> string;
    JSON_parse : string -> option value;
    decompressMessage : value -> Result value }.

Definition owner_check (owner : value) (senderAddress : string)
    (context : string) : Result unit :=
  if negb (strict_equals owner (VStr senderAddress))
  then throw (ERROR_IDENTITY_MISMATCH context "Sender")
  else ret tt.

Definition ensureOwnerIsSender (body : value) (senderAddress : string)
  : Result unit :=
  type <- get body "type" ;;
  if is_case type REQUEST_ATTESTATION_FOR_CLAIM then
    content <- get body "content" ;;
    requestForAttestation <- get content "requestForAttestation" ;;
    claim <- get requestForAttestation "claim" ;;
    owner <- get claim "owner" ;;
    owner_check owner senderAddress "Claim"
  else if is_case type SUBMIT_ATTESTATION_FOR_CLAIM then
    content <- get body "content" ;;
    attestation <- get content "attestation" ;;
    owner <- get attestation "owner" ;;
    owner_check owner senderAddress "Attestation"
  else if is_case type SUBMIT_CLAIMS_FOR_CTYPES_CLASSIC then
    content <- get body "content" ;;
    forEach content (fun claim =>
      request <- get claim "request" ;;
      claim' <- get request "claim" ;;
      owner <- get claim' "owner" ;;
      owner_check owner senderAddress "Claims")
  else ret tt.

Section WithCollaborators.
Context {DU : DataUtils} {C : Collaborators}.

Definition hashInput (encrypted : IEncryptedMessage) : string :=
  message encrypted ++ nonce encrypted
    ++ Number_toString (createdAt encrypted).

Definition ensureHashAndSignature (encrypted : IEncryptedMessage)
    (senderAddress : string) : Traced unit :=
  h <- call (Call_hashStr (hashInput encrypted))
            (Ok (hashStr (hashInput encrypted))) ;;
  (if negb (h =? hash encrypted)
   then traced_throw
          (ERROR_NONCE_HASH_INVALID (hash encrypted) (nonce encrypted)
             "Message")
   else ret tt) ;;
  call (Call_validateSignature (hash encrypted) (signature encrypted)
          senderAddress)
       (validateSignature (hash encrypted) (signature encrypted)
          senderAddress).

(** [!decoded] for [decoded : string | false] *)
Definition not_decoded (decoded : option string) : bool :=
  match decoded with
  | None => true
  | Some s => s =? EmptyString
  end.

Definition decoded_text (decoded : option string) : string :=
  match decoded with Some s => s | None => EmptyString end.

Definition parse_or_throw (text : string) : Result value :=
  match JSON_parse text with
  | Some v => Ok v
  | None => Throw SyntaxError
  end.

Definition decrypt (encrypted : IEncryptedMessage) (receiver : Identity)
  : Traced IMessage :=
  ensureHashAndSignature encrypted (senderAddress encrypted) ;;
  let ea := (message encrypted, nonce encrypted) in
  decoded <- call (Call_decryptAsymmetricAsStr (message encrypted)
                     (nonce encrypted) (senderBoxPublicKey encrypted))
                  (Ok (decryptAsymmetricAsStr receiver ea
                         (senderBoxPublicKey encrypted))) ;;
  if not_decoded decoded then traced_throw ERROR_DECODING_MESSAGE
  else
    traced_try_catch
      (messageBody <- call (Call_JSON_parse (decoded_text decoded))
                           (parse_or_throw (decoded_text decoded)) ;;
       let decrypted := {| body := messageBody; wire := encrypted |} in
       call (Call_ensureOwnerIsSender messageBody
               (senderAddress encrypted))
            (ensureOwnerIsSender (body decrypted)
               (senderAddress (wire decrypted))) ;;
       ret decrypted)
      (fun error => traced_throw ERROR_PARSING_MESSAGE).

(** [new Message(body, sender, receiver)], with the clock reading that
    [Date.now()] returns. *)
Definition constructor (body : value) (sender : Identity)
    (receiver : IPublicIdentity) (now : Z) : Result IMessage :=
  this_body <- (if isArray body then decompressMessage body
                else ret body) ;;
  let this_createdAt := now in
  let this_receiverAddress := address receiver in
  let this_senderAddress := identity_address sender in
  let this_senderBoxPublicKey := getBoxPublicKey sender in
  let encryptedMessage :=
    encryptAsymmetricAsStr sender (JSON_stringify body)
      (boxPublicKeyAsHex receiver) in
  let this_message := fst encryptedMessage in
  let this_nonce := snd encryptedMessage in
  let hashInput :=
    this_message ++ this_nonce ++ Number_toString this_createdAt in
  let this_hash := hashStr hashInput in
  let this_signature := signStr sender this_hash in
  ret {| body := this_body;
         wire := {| messageId := None;
                    receivedAt := None;
                    message := this_message;
                    nonce := this_nonce;
                    createdAt := this_createdAt;
                    hash := this_hash;
                    signature := this_signature;
                    receiverAddress := this_receiverAddress;
                    senderAddress := this_senderAddress;
                    senderBoxPublicKey := this_senderBoxPublicKey |} |}.

(** [this.encrypt()] *)
Definition encrypt (this : IMessage) : IEncryptedMessage := wire this.

End WithCollaborators.

End Message.

(* ===================================================================== *)
(** ** A concrete set of collaborators *)
(* ===================================================================== *)

(** Executable stand-ins for the external collaborators, on which the
    model is run: a JSON printer and reader, a keyed box, a hash and a
    signature that are plain string constructions, and simple validators.
    The theorems below hold for every instance of the classes; this
    instance only provides concrete runs. *)
Module Toy.

Definition dquote : ascii := ascii_of_nat 34.
Definition backslash : ascii := ascii_of_nat 92.

Fixpoint strip_prefix (p s : string) : option string :=
  match p, s with
  | EmptyString, _ => Some s
  | String a p', String b s' =>
      if Ascii.eqb a b then strip_prefix p' s' else None
  | String _ _, EmptyString => None
  end.

(** *** JSON.stringify *)

Fixpoint escape (s : string) : string :=
  match s with
  | EmptyString => EmptyString
  | String c rest =>
      if Ascii.eqb c dquote || Ascii.eqb c backslash
      then String backslash (String c (escape rest))
      else String c (escape rest)
  end.

Definition quoted (s : string) : string :=
  String dquote (escape s ++ String dquote EmptyString).

Definition is_undefined (v : value) : bool :=
  match v with VUndefined => true | _ => false end.

Fixpoint somes {A} (l : list (option A)) : list A :=
  match l with
  | [] => []
  | Some a :: rest => a :: somes rest
  | None :: rest => somes rest
  end.

(** An [undefined] array element prints as [null]; a property whose value
    is [undefined] is left out. *)
Fixpoint stringify (v : value) : string :=
  match v with
  | VUndefined | VNull => "null"
  | VBool true => "true"
  | VBool false => "false"
  | VNum n => Number_toString n
  | VStr s => quoted s
  | VArr items => "[" ++ String.concat "," (map stringify items) ++ "]"
  | VObj props =>
      "{" ++ String.concat ","
               (somes
                  (map (fun p : string * value =>
                          let (k, x) := p in
                          if is_undefined x then None
                          else Some (quoted k ++ ":" ++ stringify x))
                     props))
          ++ "}"
  end.

(** *** JSON.parse, for integers and strings without control escapes *)

Definition is_ws (c : ascii) : bool :=
  Ascii.eqb c " " || Ascii.eqb c (ascii_of_nat 10)
  || Ascii.eqb c (ascii_of_nat 9) || Ascii.eqb c (ascii_of_nat 13).

Fixpoint skip_ws (s : string) : string :=
  match s with
  | String c rest => if is_ws c then skip_ws rest else s
  | EmptyString => s
  end.

Fixpoint read_string (s : string) : option (string * string) :=
  match s with
  | EmptyString => None
  | String c rest =>
      if Ascii.eqb c dquote then Some (EmptyString, rest)
      else if Ascii.eqb c backslash then
        match rest with
        | String e rest' =>
            if Ascii.eqb e dquote || Ascii.eqb e backslash then
              match read_string rest' with
              | Some (str, r) => Some (String e str, r)
              | None => None
              end
            else None
        | EmptyString => None
        end
      else
        match read_string rest with
        | Some (str, r) => Some (String c str, r)
        | None => None
        end
  end.

Definition digit (c : ascii) : option Z :=
  let n := nat_of_ascii c in
  if (48 <=? n)%nat && (n <=? 57)%nat then Some (Z.of_nat (n - 48))
  else None.

Fixpoint read_digits (acc : Z) (s : string) : Z * string :=
  match s with
  | String c rest =>
      match digit c with
      | Some d => read_digits (10 * acc + d) rest
      | None => (acc, s)
      end
  | EmptyString => (acc, s)
  end.

Definition read_number (s : string) : option (value * string) :=
  match s with
  | String "-" (String c rest) =>
      match digit c with
      | Some d => let (n, r) := read_digits d rest in Some (VNum (- n), r)
      | None => None
      end
  | String c rest =>
      match digit c with
      | Some d => let (n, r) := read_digits d rest in Some (VNum n, r)
      | None => None
      end
  | EmptyString => None
  end.

(** A later property of the same name replaces the earlier value. *)
Fixpoint set_prop (k : string) (v : value) (props : list (string * value))
  : list (string * value) :=
  match props with
  | [] => [(k, v)]
  | (k', v') :: rest =>
      if k' =? k then (k', v) :: rest else (k', v') :: set_prop k v rest
  end.

Definition literal (word : string) (v : value) (s : string)
  : option (value * string) :=
  match strip_prefix word s with
  | Some rest => Some (v, rest)
  | None => None
  end.

Fixpoint read_value (fuel : nat) (s : string) : option (value * string) :=
  match fuel with
  | O => None
  | S fuel' =>
      match skip_ws s with
      | EmptyString => None
      | String c rest =>
          if Ascii.eqb c "n" then literal "null" VNull (String c rest)
          else if Ascii.eqb c "t" then literal "true" (VBool true) (String c rest)
          else if Ascii.eqb c "f" then literal "false" (VBool false) (String c rest)
          else if Ascii.eqb c dquote then
            match read_string rest with
            | Some (str, r) => Some (VStr str, r)
            | None => None
            end
          else if Ascii.eqb c "[" then
            match skip_ws rest with
            | String "]" r => Some (VArr [], r)
            | _ =>
                match read_elements fuel' rest with
                | Some (items, r) => Some (VArr items, r)
                | None => None
                end
            end
          else if Ascii.eqb c "{" then
            match skip_ws rest with
            | String "}" r => Some (VObj [], r)
            | _ =>
                match read_members fuel' [] rest with
                | Some (props, r) => Some (VObj props, r)
                | None => None
                end
            end
          else read_number (String c rest)
      end
  end
with read_elements (fuel : nat) (s : string)
  : option (list value * string) :=
  match fuel with
  | O => None
  | S fuel' =>
      match read_value fuel' s with
      | Some (v, rest) =>
          match skip_ws rest with
          | String "," r =>
              match read_elements fuel' r with
              | Some (items, r') => Some (v :: items, r')
              | None => None
              end
          | String "]" r => Some ([v], r)
          | _ => None
          end
      | None => None
      end
  end
with read_members (fuel : nat) (acc : list (string * value)) (s : string)
  : option (list (string * value) * string) :=
  match fuel with
  | O => None
  | S fuel' =>
      match skip_ws s with
      | String c rest =>
          if Ascii.eqb c dquote then
            match read_string rest with
            | Some (k, r) =>
                match skip_ws r with
                | String ":" r1 =>
                    match read_value fuel' r1 with
                    | Some (v, r2) =>
                        let acc' := set_prop k v acc in
                        match skip_ws r2 with
                        | String "," r3 => read_members fuel' acc' r3
                        | String "}" r3 => Some (acc', r3)
                        | _ => None
                        end
                    | None => None
                    end
                | _ => None
                end
            | None => None
            end
          else None
      | EmptyString => None
      end
  end.

Definition parse (text : string) : option value :=
  match read_value (2 * String.length text + 2) text with
  | Some (v, rest) =>
      match skip_ws rest with
      | EmptyString => Some v
      | String _ _ => None
      end
  | None => None
  end.

(** *** Identities, box, hash and signature *)

Record ToyIdentity : Type :=
  { toy_address : string;
    toy_boxPublicKey : string }.

Definition box_header (receiverKey senderKey : string) : string :=
  "box(" ++ receiverKey ++ "," ++ senderKey ++ ")".

(** The box names both keys in clear and carries the text: it opens only
    for the same pair of keys. *)
Definition toy_encrypt (sender : ToyIdentity) (text receiverKey : string)
  : string * string :=
  (box_header receiverKey (toy_boxPublicKey sender) ++ text, "nonce-1").

Definition toy_decrypt (receiver : ToyIdentity) (ea : string * string)
    (senderKey : string) : option string :=
  strip_prefix (box_header (toy_boxPublicKey receiver) senderKey) (fst ea).

Definition toy_hash (s : string) : string := "H(" ++ s ++ ")".

Definition toy_signature (address data : string) : string :=
  "S(" ++ address ++ "," ++ data ++ ")".

Definition attestationObject (a : AttestationUtils.IAttestation) : value :=
  VObj [ ("claimHash", AttestationUtils.claimHash a);
         ("cTypeHash", AttestationUtils.cTypeHash a);
         ("owner", AttestationUtils.owner a);
         ("revoked", AttestationUtils.revoked a);
         ("delegationId", AttestationUtils.delegationId a) ].

(** Modelled from the spec: [Message.utils.decompressMessage] is not among
    the sources.  Section 4.2 makes it a dispatch over the kind tag
    [body[0]] that rebuilds [{ type, content }] from [body[1]] with the
    record codec of that kind and fails on an unknown tag; the two kinds
    that the runs below use are given, attestation submission through
    [AttestationUtils.decompress]. *)
Definition toy_decompressMessage (body : value) : Result value :=
  match body with
  | VArr b =>
      let kind := index b 0 in
      let packed := match index b 1 with VArr c => c | _ => [] end in
      if Message.is_case kind Message.SUBMIT_ATTESTATION_FOR_CLAIM then
        a <- AttestationUtils.decompress (index packed 0) ;;
        ret (VObj [ ("type", kind);
                    ("content",
                      VObj [ ("attestation", attestationObject a);
                             ("attestationPE", index packed 1) ]) ])
      else if Message.is_case kind Message.INFORM_CREATE_DELEGATION then
        ret (VObj [ ("type", kind);
                    ("content",
                      VObj [ ("delegationId", index packed 0);
                             ("isPCR", index packed 1) ]) ])
      else throw ERROR_MESSAGE_BODY_MALFORMED
  | _ => throw ERROR_MESSAGE_BODY_MALFORMED
  end.

#[export] Instance collaborators : Message.Collaborators :=
  {| Message.Identity := ToyIdentity;
     Message.identity_address := toy_address;
     Message.getBoxPublicKey := toy_boxPublicKey;
     Message.encryptAsymmetricAsStr := toy_encrypt;
     Message.decryptAsymmetricAsStr := toy_decrypt;
     Message.signStr := fun id data => toy_signature (toy_address id) data;
     Message.hashStr := toy_hash;
     Message.JSON_stringify := stringify;
     Message.JSON_parse := parse;
     Message.decompressMessage := toy_decompressMessage |}.

Definition is_hex_digit (c : ascii) : bool :=
  let n := nat_of_ascii c in
  ((48 <=? n)%nat && (n <=? 57)%nat)
  || ((65 <=? n)%nat && (n <=? 70)%nat)
  || ((97 <=? n)%nat && (n <=? 102)%nat).

(** The alphabet of base 58: digits and letters without [0], [O], [I]
    and [l]. *)
Definition is_base58 (c : ascii) : bool :=
  let n := nat_of_ascii c in
  (((49 <=? n)%nat && (n <=? 57)%nat)
   || ((65 <=? n)%nat && (n <=? 90)%nat)
   || ((97 <=? n)%nat && (n <=? 122)%nat))
  && negb (n =? 73)%nat && negb (n =? 79)%nat && negb (n =? 108)%nat.

Fixpoint all_chars (p : ascii -> bool) (s : string) : bool :=
  match s with
  | EmptyString => true
  | String c rest => p c && all_chars p rest
  end.

(** [0x] and 64 hexadecimal digits. *)
Definition well_formed_hash (v : value) : bool :=
  match v with
  | VStr s =>
      match strip_prefix "0x" s with
      | Some digits =>
          (String.length digits =? 64)%nat && all_chars is_hex_digit digits
      | None => false
      end
  | _ => false
  end.

(** The shape of an SS58 address of the KILT network, prefix 38: 48
    characters of base 58, the first a [4].  The checksum inside the
    address is not recomputed; the addresses of module [Sample] carry the
    right one. *)
Definition well_formed_address (v : value) : bool :=
  match v with
  | VStr (String "4" rest) =>
      (String.length rest =? 47)%nat && all_chars is_base58 rest
  | _ => false
  end.

(** A hash and an address are valid when well formed; a signature is valid
    when it is the signature above. *)
#[export] Instance dataUtils : DataUtils :=
  {| validateHash_ok := fun h _ => well_formed_hash h;
     validateAddress_ok := fun a _ => well_formed_address a;
     validateSignature_ok := fun data sig address =>
       sig =? toy_signature address data |}.

(** A value against the [type] that a property declaration of a schema
    gives; a declaration without a scalar type, a reference to another
    CType for one, constrains nothing here. *)
Definition matches_declared_type (v declaration : value) : bool :=
  match (match declaration with
         | VObj d => lookup "type" d
         | _ => VUndefined
         end) with
  | VStr t =>
      if t =? "string" then (typeof v =? "string")
      else if (t =? "number") || (t =? "integer") then (typeof v =? "number")
      else if t =? "boolean" then (typeof v =? "boolean")
      else true
  | _ => true
  end.

(** Every property of the contents that the schema declares has the
    declared type; a property that the schema does not declare is let
    through, as JSON Schema does by default. *)
Fixpoint properties_match (props declared : list (string * value)) : bool :=
  match props with
  | [] => true
  | (k, v) :: rest =>
      match lookup k declared with
      | VUndefined => properties_match rest declared
      | declaration =>
          matches_declared_type v declaration
          && properties_match rest declared
      end
  end.

(** The marks of a CType schema: [$id], [$schema], [title], an object of
    [properties] and [type: 'object']. *)
Definition is_ctype_schema (sch : list (string * value)) : bool :=
  (typeof (lookup "$id" sch) =? "string")
  && (typeof (lookup "$schema" sch) =? "string")
  && (typeof (lookup "title" sch) =? "string")
  && strict_equals (lookup "type" sch) (VStr "object")
  && match lookup "properties" sch with VObj _ => true | _ => false end.

(** Contents validate against a CType schema when they are an object whose
    declared properties have their declared types.  [false] also stands
    for the throw of the real validator on a schema that is no CType
    schema. *)
Definition toy_verifyClaimStructure (claimContents cTypeSchema : value)
  : bool :=
  match claimContents, cTypeSchema with
  | VObj props, VObj sch =>
      is_ctype_schema sch
      && match lookup "properties" sch with
         | VObj declared => properties_match props declared
         | _ => false
         end
  | _, _ => false
  end.

(** The contents of a claim are an object of named scalars or objects. *)
Definition contents_well_formed (c : value) : bool :=
  match c with
  | VUndefined => true
  | VObj props =>
      forallb (fun p : string * value =>
                 negb (fst p =? EmptyString)
                 && negb (typeof (snd p) =? "undefined"))
        props
  | _ => false
  end.

(** A stand-in for [ClaimUtils.errorCheck]: a CType hash that is present and
    well formed, an owner that, when present, is a well-formed address, and
    well-formed contents. *)
Definition toy_claim_errorCheck (input : Claim.IClaim) : bool :=
  truthy (Claim.cTypeHash input)
  && (if truthy (Claim.owner input)
      then well_formed_address (Claim.owner input) else true)
  && contents_well_formed (Claim.contents input)
  && well_formed_hash (Claim.cTypeHash input).

#[export] Instance claimValidators : Claim.Validators :=
  {| Claim.verifyClaimStructure := toy_verifyClaimStructure;
     Claim.validateNestedSchemas := fun sch _ c =>
       toy_verifyClaimStructure c sch;
     Claim.errorCheck_ok := toy_claim_errorCheck |}.

Definition alice : ToyIdentity :=
  {| toy_address := "5Alice"; toy_boxPublicKey := "0xa11ce" |}.
Definition bob : ToyIdentity :=
  {| toy_address := "5Bob"; toy_boxPublicKey := "0xb0b" |}.
Definition publicIdentity (id : ToyIdentity) : Message.IPublicIdentity :=
  {| Message.address := toy_address id;
     Message.boxPublicKeyAsHex := toy_boxPublicKey id |}.

End Toy.

(* ===================================================================== *)
(** ** Vocabulary of the specification *)
(* ===================================================================== *)

(** The class of section 7 that an exception of the code belongs to.  The
    errors of the claim class and the two JavaScript errors have none. *)
Definition kind_of (e : Exn) : option ErrorKind :=
  match e with
  | SDK ERROR_CTYPE_HASH_NOT_PROVIDED
  | SDK ERROR_CLAIM_HASH_NOT_PROVIDED
  | SDK ERROR_OWNER_NOT_PROVIDED
  | SDK ERROR_DELEGATION_ID_TYPE
  | SDK ERROR_REVOCATION_BIT_MISSING
  | SDK (ERROR_COMPRESS_OBJECT _) => Some MalformedRecord
  | SDK (ERROR_DECOMPRESSION_ARRAY _) => Some ArrayShapeMismatch
  | SDK ERROR_MESSAGE_BODY_MALFORMED => Some UnknownMessageKind
  | SDK (ERROR_NONCE_HASH_INVALID _ _ _) => Some IntegrityError
  | SDK ERROR_DECODING_MESSAGE => Some DecryptionError
  | SDK ERROR_PARSING_MESSAGE => Some PayloadParseError
  | SDK (ERROR_IDENTITY_MISMATCH _ _) => Some IdentityMismatch
  | DataUtilsError validator _ =>
      if validator =? "validateSignature" then Some SignatureError
      else Some MalformedRecord
  | SDK ERROR_CLAIM_UNVERIFIABLE | SDK ERROR_NESTED_CLAIM_UNVERIFIABLE
  | TypeError | SyntaxError => None
  end.

Definition fails_with {A} (r : Result A) (k : ErrorKind) : Prop :=
  exists e, r = Throw e /\ kind_of e = Some k.

(** [v] is an array of exactly [n] elements. *)
Definition array_of_length (n : nat) (v : value) : bool :=
  match v with
  | VArr items => (length items =? n)%nat
  | _ => false
  end.

(** The element at position 2 of a quote tuple, where the cost sits. *)
Definition cost_slot (v : value) : value :=
  match v with
  | VArr items => index items 2
  | _ => VUndefined
  end.

Module Valid.
Import AttestationUtils QuoteUtils.

Section WithValidators.
Context {DU : DataUtils}.

(** What [errorCheck] asks of an attestation. *)
Definition attestation (a : IAttestation) : bool :=
  truthy (AttestationUtils.cTypeHash a)
  && validateHash_ok (AttestationUtils.cTypeHash a) "CType"
  && truthy (claimHash a)
  && validateHash_ok (claimHash a) "Claim"
  && truthy (owner a)
  && validateAddress_ok (owner a) "owner"
  && (typeof (revoked a) =? "boolean").

Definition attestation_tuple (t : value) : bool :=
  match t with
  | VArr [ch; ct; o; r; d] =>
      attestation {| claimHash := ch; AttestationUtils.cTypeHash := ct;
                     owner := o; revoked := r; delegationId := d |}
  | _ => false
  end.
End WithValidators.

Definition cost (c : ICostBreakdown) : bool :=
  truthy (gross c) && truthy (net c) && truthy (tax c).

Definition cost_tuple (t : value) : bool :=
  match t with
  | VArr [g; n; x] => cost {| gross := g; net := n; tax := x |}
  | _ => false
  end.

Definition quote (q : IQuote) : bool :=
  negb (quote_fields_missing q)
  && match QuoteUtils.cost q with Some c => cost c | None => false end.

Definition quote_tuple (t : value) : bool :=
  match t with
  | VArr [a; h; c; cur; tc; tf] =>
      truthy a && truthy h && cost_tuple c && truthy cur && truthy tc
      && truthy tf
  | _ => false
  end.

Definition attesterSignedQuote (s : IQuoteAttesterSigned) : bool :=
  quote (QuoteUtils.quote s) && truthy (attesterSignature s).

Definition attesterSignedQuote_tuple (t : value) : bool :=
  match t with
  | VArr [a; h; c; cur; tc; tf; sig] =>
      quote_tuple (VArr [a; h; c; cur; tc; tf]) && truthy sig
  | _ => false
  end.

Definition quoteAgreement (g : IQuoteAgreement) : bool :=
  attesterSignedQuote (signedQuote g).

Definition quoteAgreement_tuple (t : value) : bool :=
  match t with
  | VArr [a; h; c; cur; tc; tf; sig; csig; root] =>
      attesterSignedQuote_tuple (VArr [a; h; c; cur; tc; tf; sig])
  | _ => false
  end.

End Valid.

(** The five checks of [Message.decrypt] (section 4.3), and the check
    that each recorded call belongs to. *)
Inductive Stage : Type :=
| HashVerification
| SignatureVerification
| AsymmetricDecryption
| PayloadParsing
| OwnerBinding.

Definition stage_of (c : Call) : Stage :=
  match c with
  | Call_hashStr _ => HashVerification
  | Call_validateSignature _ _ _ => SignatureVerification
  | Call_decryptAsymmetricAsStr _ _ _ => AsymmetricDecryption
  | Call_JSON_parse _ => PayloadParsing
  | Call_ensureOwnerIsSender _ _ => OwnerBinding
  end.

Definition stages {A} (run : Traced A) : list Stage :=
  map stage_of (calls run).

Definition pipeline : list Stage :=
  [HashVerification; SignatureVerification; AsymmetricDecryption;
   PayloadParsing; OwnerBinding].

Definition is_prefix {A} (l whole : list A) : Prop :=
  exists rest, (l ++ rest)%list = whole.

(** Two envelopes that differ at most in [messageId], [receivedAt] and
    [receiverAddress]. *)
Definition differ_only_in_transport_fields
    (e1 e2 : Message.IEncryptedMessage) : Prop :=
  Message.message e1 = Message.message e2
  /\ Message.nonce e1 = Message.nonce e2
  /\ Message.createdAt e1 = Message.createdAt e2
  /\ Message.hash e1 = Message.hash e2
  /\ Message.signature e1 = Message.signature e2
  /\ Message.senderAddress e1 = Message.senderAddress e2
  /\ Message.senderBoxPublicKey e1 = Message.senderBoxPublicKey e2.

Section Checks.
Context {DU : DataUtils} {C : Message.Collaborators}.
Import Message.

(** The checks that [decrypt] makes, in the words of its code. *)
Definition hash_matches (e : IEncryptedMessage) : Prop :=
  hashStr (hashInput e) = hash e.

Definition signature_valid (e : IEncryptedMessage) : Prop :=
  validateSignature_ok (hash e) (signature e) (senderAddress e) = true.

Definition opens_to (e : IEncryptedMessage) (r : Identity) (text : string)
  : Prop :=
  decryptAsymmetricAsStr r (message e, nonce e) (senderBoxPublicKey e)
  = Some text
  /\ text <> EmptyString.

End Checks.

(** The three kinds for which [ensureOwnerIsSender] has a case. *)
Definition owner_bound_kinds : list Message.MessageBodyType :=
  [Message.REQUEST_ATTESTATION_FOR_CLAIM;
   Message.SUBMIT_ATTESTATION_FOR_CLAIM;
   Message.SUBMIT_CLAIMS_FOR_CTYPES_CLASSIC].

(** [r] is a return, not a throw. *)
Definition accepts {A} (r : Result A) : bool :=
  match r with Ok _ => true | Throw _ => false end.

(** [claim.request.claim.owner], as the case
    SUBMIT_CLAIMS_FOR_CTYPES_CLASSIC of [ensureOwnerIsSender] reads it. *)
Definition attested_claim_owner (claim : value) : Result value :=
  request <- get claim "request" ;;
  claim' <- get request "claim" ;;
  get claim' "owner".

(** [content.requestForAttestation.claim.owner], as the case
    REQUEST_ATTESTATION_FOR_CLAIM reads it. *)
Definition requested_claim_owner (content : value) : Result value :=
  requestForAttestation <- get content "requestForAttestation" ;;
  claim <- get requestForAttestation "claim" ;;
  get claim "owner".

(** Concrete messages for the runs. *)
Module Sample.
Import Toy.

Definition attestation (owner : string) : value :=
  VObj [ ("claimHash", VStr "0xc1a1");
         ("cTypeHash", VStr "0xc7");
         ("owner", VStr owner);
         ("revoked", VBool false);
         ("delegationId", VNull) ].

(** A structured attestation submission, [{ type, content }]. *)
Definition submitAttestation (owner : string) : value :=
  VObj [ ("type", VStr (Message.tag Message.SUBMIT_ATTESTATION_FOR_CLAIM));
         ("content", VObj [ ("attestation", attestation owner) ]) ].

(** The same submission in compressed form, [[type, [tuple, null]]]. *)
Definition compressedSubmitAttestation (owner : string) : value :=
  VArr [ VStr (Message.tag Message.SUBMIT_ATTESTATION_FOR_CLAIM);
         VArr [ VArr [ VStr "0xc1a1"; VStr "0xc7"; VStr owner; VBool false;
                       VNull ];
                VNull ] ].

(** What [decompressMessage] makes of it. *)
Definition decompressedSubmitAttestation (owner : string) : value :=
  VObj [ ("type", VStr (Message.tag Message.SUBMIT_ATTESTATION_FOR_CLAIM));
         ("content", VObj [ ("attestation", attestation owner);
                            ("attestationPE", VNull) ]) ].

Definition rejectTerms : value :=
  VObj [ ("type", VStr (Message.tag Message.REJECT_TERMS));
         ("content", VObj [ ("claim", VObj [ ("owner", VStr "5Carol") ]) ]) ].

Definition empty_envelope : Message.IEncryptedMessage :=
  {| Message.messageId := None; Message.receivedAt := None;
     Message.message := EmptyString; Message.nonce := EmptyString;
     Message.createdAt := 0; Message.hash := EmptyString;
     Message.signature := EmptyString;
     Message.receiverAddress := EmptyString;
     Message.senderAddress := EmptyString;
     Message.senderBoxPublicKey := EmptyString |}.

(** [new Message(body, sender, receiver).encrypt()] at clock [now]. *)
Definition sent (body : value) (sender receiver : ToyIdentity) (now : Z)
  : Message.IEncryptedMessage :=
  match Message.constructor body sender (publicIdentity receiver) now with
  | Ok m => Message.encrypt m
  | Throw _ => empty_envelope
  end.

(** What a carrier may change on the way. *)
Definition relabelled (e : Message.IEncryptedMessage)
  : Message.IEncryptedMessage :=
  {| Message.messageId := Some "msg-42";
     Message.receivedAt := Some 1600000000999%Z;
     Message.message := Message.message e;
     Message.nonce := Message.nonce e;
     Message.createdAt := Message.createdAt e;
     Message.hash := Message.hash e;
     Message.signature := Message.signature e;
     Message.receiverAddress := "5Carol";
     Message.senderAddress := Message.senderAddress e;
     Message.senderBoxPublicKey := Message.senderBoxPublicKey e |}.

Definition now : Z := 1600000000000.

(** A CType hash and a claim hash, 32 bytes in hexadecimal. *)
Definition cTypeHash : value :=
  VStr "0xde9f624875aa620d06434603787a40c8cd02cc25c7b775cf50de8a3a96bbeafa".

Definition claimHash : value :=
  VStr "0x8928aae63c84d87ea098564d1e03ad813f107add474e56aedd286349c0c03ea4".

(** The SS58 addresses, prefix 38, of the development accounts [//Alice]
    and [//Bob]. *)
Definition aliceAddress : value :=
  VStr "4siJtc4dYq2gPre8Xj6KJcSjVAdi1gmjctUzjf3AwrtNnhvy".

Definition bobAddress : value :=
  VStr "4r99cXtVR72nEr9d6o8NZGXmPKcpZ9NQ84LfgHuVssy91nKb".

(** A CType schema with one property, [name], a string. *)
Definition schema : value :=
  VObj [ ("$id", VStr "kilt:ctype:0x1");
         ("$schema", VStr "http://kilt-protocol.org/draft-01/ctype#");
         ("title", VStr "Verifier");
         ("properties", VObj [ ("name", VObj [ ("type", VStr "string") ]) ]);
         ("type", VStr "object") ].

(** [name] is a number where the schema asks for a string. *)
Definition contents_off_schema : value :=
  VObj [ ("name", VNum 123) ].

Definition contents_on_schema : value :=
  VObj [ ("name", VStr "bob") ].

Definition quoteAgreement : QuoteUtils.IQuoteAgreement :=
  {| QuoteUtils.signedQuote :=
       {| QuoteUtils.quote :=
            {| QuoteUtils.attesterAddress := VStr "5Alice";
               QuoteUtils.cTypeHash := VStr "0xc7";
               QuoteUtils.cost :=
                 Some {| QuoteUtils.gross := VNum 233;
                         QuoteUtils.net := VNum 200;
                         QuoteUtils.tax := VNum 33 |};
               QuoteUtils.currency := VStr "Euro";
               QuoteUtils.termsAndConditions := VStr "https://terms";
               QuoteUtils.timeframe := VStr "2020-01-01" |};
          QuoteUtils.attesterSignature := VStr "0x5161" |};
     QuoteUtils.claimerSignature := VStr "0x5162";
     QuoteUtils.rootHash := VStr "0x7007" |}.

(** The envelope [e] with [kept] as ciphertext and [moved] put in front of
    its nonce. *)
Definition boundary_shifted (e : Message.IEncryptedMessage)
    (kept : string) (moved : string) : Message.IEncryptedMessage :=
  {| Message.messageId := Message.messageId e;
     Message.receivedAt := Message.receivedAt e;
     Message.message := kept;
     Message.nonce := moved ++ Message.nonce e;
     Message.createdAt := Message.createdAt e;
     Message.hash := Message.hash e;
     Message.signature := Message.signature e;
     Message.receiverAddress := Message.receiverAddress e;
     Message.senderAddress := Message.senderAddress e;
     Message.senderBoxPublicKey := Message.senderBoxPublicKey e |}.

(** [e] with the last character of its ciphertext moved to its nonce. *)
Definition last_character_shifted (e : Message.IEncryptedMessage)
  : Message.IEncryptedMessage :=
  let m := Message.message e in
  boundary_shifted e (substring 0 (String.length m - 1) m)
    (substring (String.length m - 1) 1 m).

Definition attestedClaim (owner : string) : value :=
  VObj [ ("request", VObj [ ("claim", VObj [ ("owner", VStr owner) ]) ]);
         ("attestation", attestation owner) ].

Definition submitClaimsClassic (owners : list string) : value :=
  VObj [ ("type",
          VStr (Message.tag Message.SUBMIT_CLAIMS_FOR_CTYPES_CLASSIC));
         ("content", VArr (map attestedClaim owners)) ].

Definition requestAttestation (owner : string) : value :=
  VObj [ ("type", VStr (Message.tag Message.REQUEST_ATTESTATION_FOR_CLAIM));
         ("content",
           VObj [ ("requestForAttestation",
                    VObj [ ("claim", VObj [ ("owner", VStr owner) ]) ]) ]) ].

End Sample.

(* ===================================================================== *)
(** * Properties *)
(* ===================================================================== *)

(** ** Record codecs *)

Lemma truthy_not_falsy (v : value) : truthy v = true -> falsy v = false.
Proof. unfold falsy. intros ->. reflexivity. Qed.

Section CodecFacts.
Context {DU : DataUtils}.
Import AttestationUtils.

Lemma delegationId_guard_false (d : value) : delegationId_guard d = false.
Proof.
  unfold delegationId_guard. simpl. apply andb_false_r.
Qed.

(** [errorCheck] passes exactly on the attestations that [Valid] names. *)
Lemma errorCheck_valid (a : IAttestation) :
  errorCheck a = Ok tt <-> Valid.attestation a = true.
Proof.
  unfold errorCheck, Valid.attestation, validateHash, validateAddress, falsy.
  rewrite delegationId_guard_false. simpl.
  destruct (truthy (cTypeHash a)); simpl; [| split; discriminate].
  destruct (validateHash_ok (cTypeHash a) "CType"); simpl;
    [| split; discriminate].
  destruct (truthy (claimHash a)); simpl; [| split; discriminate].
  destruct (validateHash_ok (claimHash a) "Claim"); simpl;
    [| split; discriminate].
  destruct (truthy (owner a)); simpl; [| split; discriminate].
  destruct (validateAddress_ok (owner a) "owner"); simpl;
    [| split; discriminate].
  destruct (typeof (revoked a) =? "boolean"); simpl; split;
    solve [reflexivity | discriminate].
Qed.

Lemma compress_valid (a : IAttestation) :
  Valid.attestation a = true ->
  compress a = Ok (VArr [claimHash a; cTypeHash a; owner a; revoked a;
                         delegationId a]).
Proof.
  intros H. apply errorCheck_valid in H. unfold compress. rewrite H.
  reflexivity.
Qed.

Lemma errorCheck_never_delegation_error (a : IAttestation) :
  errorCheck a <> Throw (SDK ERROR_DELEGATION_ID_TYPE).
Proof.
  unfold errorCheck, validateHash, validateAddress.
  rewrite delegationId_guard_false. simpl.
  destruct (falsy (cTypeHash a)); simpl; [discriminate |].
  destruct (validateHash_ok (cTypeHash a) "CType"); simpl; [| discriminate].
  destruct (falsy (claimHash a)); simpl; [discriminate |].
  destruct (validateHash_ok (claimHash a) "Claim"); simpl; [| discriminate].
  destruct (falsy (owner a)); simpl; [discriminate |].
  destruct (validateAddress_ok (owner a) "owner"); simpl; [| discriminate].
  destruct (typeof (revoked a) =? "boolean"); simpl; discriminate.
Qed.

(** C8. For every attestation handed to [errorCheck], and so to
    [compress], [ERROR_DELEGATION_ID_TYPE] is never thrown, whatever
    [delegationId] is: the guard
    [typeof input.delegationId !== 'string' && !input.delegationId === null]
    is false on every value, because [!input.delegationId] is a boolean
    and a boolean is never [=== null]. *)
Theorem delegation_id_error_unreachable :
  forall input : IAttestation,
    delegationId_guard (delegationId input) = false
    /\ errorCheck input <> Throw (SDK ERROR_DELEGATION_ID_TYPE)
    /\ compress input <> Throw (SDK ERROR_DELEGATION_ID_TYPE).
Proof.
  intros input. split; [apply delegationId_guard_false |].
  split; [apply errorCheck_never_delegation_error |].
  unfold compress. simpl.
  pose proof (errorCheck_never_delegation_error input) as H.
  destruct (errorCheck input) as [[] | e]; [discriminate |].
  intros E. injection E as ->. apply H. reflexivity.
Qed.

(** C6. [compress] rejects a record one of whose required fields is absent
    or falsy, with an error of the class MalformedRecord: an attestation
    without [cTypeHash], [claimHash] or [owner] (the error names the first
    such field once the fields before it passed their validator), a quote
    without one of its six fields, a cost breakdown without [gross], [net]
    or [tax].  An attestation whose [revoked] is [false] is not taken for
    one without the field: with the three other fields in order, [compress]
    succeeds and the tuple has [false] at the position of [revoked]. *)
Theorem compress_rejects_missing_fields :
  (forall a : IAttestation,
      falsy (cTypeHash a) = true \/ falsy (claimHash a) = true
      \/ falsy (owner a) = true ->
      fails_with (compress a) MalformedRecord)
  /\ (forall a : IAttestation,
         falsy (cTypeHash a) = true ->
         compress a = Throw (SDK ERROR_CTYPE_HASH_NOT_PROVIDED))
  /\ (forall a : IAttestation,
         truthy (cTypeHash a) && validateHash_ok (cTypeHash a) "CType" = true ->
         falsy (claimHash a) = true ->
         compress a = Throw (SDK ERROR_CLAIM_HASH_NOT_PROVIDED))
  /\ (forall a : IAttestation,
         truthy (cTypeHash a) && validateHash_ok (cTypeHash a) "CType" = true ->
         truthy (claimHash a) && validateHash_ok (claimHash a) "Claim" = true ->
         falsy (owner a) = true ->
         compress a = Throw (SDK ERROR_OWNER_NOT_PROVIDED))
  /\ (forall q : QuoteUtils.IQuote,
         falsy (QuoteUtils.attesterAddress q) = true
         \/ falsy (QuoteUtils.cTypeHash q) = true
         \/ QuoteUtils.cost q = None
         \/ falsy (QuoteUtils.currency q) = true
         \/ falsy (QuoteUtils.termsAndConditions q) = true
         \/ falsy (QuoteUtils.timeframe q) = true ->
         QuoteUtils.compressQuote q
         = Throw (SDK (ERROR_COMPRESS_OBJECT "Quote")))
  /\ (forall c : QuoteUtils.ICostBreakdown,
         falsy (QuoteUtils.gross c) = true \/ falsy (QuoteUtils.net c) = true
         \/ falsy (QuoteUtils.tax c) = true ->
         QuoteUtils.compressCost c
         = Throw (SDK (ERROR_COMPRESS_OBJECT "Cost Breakdown")))
  /\ (forall ch ct o d : value,
         truthy ct && validateHash_ok ct "CType" = true ->
         truthy ch && validateHash_ok ch "Claim" = true ->
         truthy o && validateAddress_ok o "owner" = true ->
         compress {| claimHash := ch; cTypeHash := ct; owner := o;
                     revoked := VBool false; delegationId := d |}
         = Ok (VArr [ch; ct; o; VBool false; d])).
Proof.
  repeat apply conj.
  - intros a H. unfold fails_with, compress, errorCheck, validateHash,
      validateAddress.
    rewrite delegationId_guard_false. simpl.
    destruct (falsy (cTypeHash a)) eqn:E1; simpl; [eauto |].
    destruct (validateHash_ok (cTypeHash a) "CType"); simpl; [| eauto].
    destruct (falsy (claimHash a)) eqn:E2; simpl; [eauto |].
    destruct (validateHash_ok (claimHash a) "Claim"); simpl; [| eauto].
    destruct (falsy (owner a)) eqn:E3; simpl; [eauto |].
    destruct H as [H | [H | H]]; discriminate.
  - intros a H. unfold compress, errorCheck. rewrite H. reflexivity.
  - intros a H1 H2. apply andb_prop in H1 as [T1 V1].
    apply truthy_not_falsy in T1.
    unfold compress, errorCheck, validateHash.
    rewrite T1, V1. simpl. rewrite H2. reflexivity.
  - intros a H1 H2 H3. apply andb_prop in H1 as [T1 V1].
    apply andb_prop in H2 as [T2 V2].
    apply truthy_not_falsy in T1. apply truthy_not_falsy in T2.
    unfold compress, errorCheck, validateHash.
    rewrite T1, V1, T2, V2, delegationId_guard_false. simpl.
    rewrite H3. reflexivity.
  - intros q H. unfold QuoteUtils.compressQuote.
    replace (QuoteUtils.quote_fields_missing q) with true; [reflexivity |].
    unfold QuoteUtils.quote_fields_missing, QuoteUtils.absent.
    destruct H as [H | [H | [H | [H | [H | H]]]]]; rewrite H;
      repeat rewrite orb_true_r; reflexivity.
  - intros c H. unfold QuoteUtils.compressCost.
    replace (falsy (QuoteUtils.gross c) || falsy (QuoteUtils.net c)
             || falsy (QuoteUtils.tax c)) with true; [reflexivity |].
    destruct H as [H | [H | H]]; rewrite H;
      repeat rewrite orb_true_r; reflexivity.
  - intros ch ct o d H1 H2 H3. apply compress_valid.
    unfold Valid.attestation. simpl.
    apply andb_prop in H1 as [-> ->]. apply andb_prop in H2 as [-> ->].
    apply andb_prop in H3 as [-> ->]. reflexivity.
Qed.

End CodecFacts.

Section ShapeFacts.
Import AttestationUtils QuoteUtils.

Lemma decompressCost_shape (v : value) :
  if array_of_length 3 v
  then exists c, decompressCost v = Ok c
  else decompressCost v
       = Throw (SDK (ERROR_DECOMPRESSION_ARRAY (Some "Cost Breakdown"))).
Proof.
  destruct v as [ | | b | n | s | items | props ]; simpl; try reflexivity.
  destruct (length items =? 3)%nat; simpl; eauto.
Qed.

(** Each quote decompressor either returns, or throws the decompression
    error; it throws exactly when the tuple has the wrong length or its
    cost slot is not a 3-array. *)
Ltac quote_shape v :=
  destruct v as [ | | b | n | s | items | props ]; simpl;
  try (split; [intros _; right; reflexivity | intros _; eexists; split; reflexivity]);
  match goal with
  | |- context [ (length ?l =? ?k)%nat ] =>
      destruct (length l =? k)%nat eqn:L; simpl;
      [ pose proof (decompressCost_shape (index l 2)) as C;
        destruct (array_of_length 3 (index l 2));
        [ destruct C as [c ->]; simpl; split;
          [ intros [e [E _]]; discriminate
          | intros [E | E]; discriminate ]
        | rewrite C; simpl; split;
          [ intros _; right; reflexivity
          | intros _; eexists; split; reflexivity ] ]
      | split; [ intros _; left; reflexivity
               | intros _; eexists; split; reflexivity ] ]
  end.

Lemma decompressQuote_shape (v : value) :
  fails_with (decompressQuote v) ArrayShapeMismatch
  <-> array_of_length 6 v = false \/ array_of_length 3 (cost_slot v) = false.
Proof. unfold fails_with, decompressQuote. quote_shape v. Qed.

Lemma decompressAttesterSignedQuote_shape (v : value) :
  fails_with (decompressAttesterSignedQuote v) ArrayShapeMismatch
  <-> array_of_length 7 v = false \/ array_of_length 3 (cost_slot v) = false.
Proof. unfold fails_with, decompressAttesterSignedQuote. quote_shape v. Qed.

Lemma decompressQuoteAgreement_shape (v : value) :
  fails_with (decompressQuoteAgreement v) ArrayShapeMismatch
  <-> array_of_length 9 v = false \/ array_of_length 3 (cost_slot v) = false.
Proof. unfold fails_with, decompressQuoteAgreement. quote_shape v. Qed.

Lemma decompress_shape (v : value) :
  fails_with (decompress v) ArrayShapeMismatch
  <-> array_of_length 5 v = false.
Proof.
  unfold fails_with, decompress.
  destruct v as [ | | b | n | s | items | props ]; simpl;
    try (split; [reflexivity | intros _; eexists; split; reflexivity]).
  destruct (length items =? 5)%nat; simpl; split;
    solve [ intros [e [E _]]; discriminate | discriminate
          | reflexivity | intros _; eexists; split; reflexivity ].
Qed.

Lemma decompressCost_throws (v : value) (e : Exn) :
  decompressCost v = Throw e -> kind_of e = Some ArrayShapeMismatch.
Proof.
  destruct v as [ | | b | n | s | items | props ]; simpl;
    try (intros E; injection E as <-; reflexivity).
  destruct (length items =? 3)%nat; simpl; intros E;
    [discriminate | injection E as <-; reflexivity].
Qed.

(** A throw of a quote decompressor is its own or that of the cost slot. *)
Ltac quote_throws v :=
  destruct v as [ | | b | n | s | items | props ]; simpl;
  try (intros E; injection E as <-; reflexivity);
  match goal with
  | |- context [ (length ?l =? ?k)%nat ] =>
      destruct (length l =? k)%nat; simpl;
      [ destruct (decompressCost (index l 2)) as [c | x] eqn:C; simpl;
        [ discriminate
        | intros E; injection E as <-;
          exact (decompressCost_throws _ C) ]
      | intros E; injection E as <-; reflexivity ]
  end.

Lemma decompress_throws_shape_only (v : value) (e : Exn) :
  decompress v = Throw e
  \/ decompressQuote v = Throw e
  \/ decompressAttesterSignedQuote v = Throw e
  \/ decompressQuoteAgreement v = Throw e ->
  kind_of e = Some ArrayShapeMismatch.
Proof.
  intros [H | [H | [H | H]]]; revert H.
  - unfold decompress.
    destruct v as [ | | b | n | s | items | props ]; simpl;
      try (intros E; injection E as <-; reflexivity).
    destruct (length items =? 5)%nat; simpl; intros E;
      [discriminate | injection E as <-; reflexivity].
  - unfold decompressQuote. quote_throws v.
  - unfold decompressAttesterSignedQuote. quote_throws v.
  - unfold decompressQuoteAgreement. quote_throws v.
Qed.

(** C5, as the code has it. [decompress] fails with ArrayShapeMismatch
    exactly when its input is not an array or has not the arity of the
    type (Attestation 5, Quote 6, AttesterSignedQuote 7, QuoteAgreement 9)
    or, for the three quote types, when the element at index 2, the cost
    breakdown, is not itself an array of length 3; they fail in no other
    way.  An attestation tuple of five elements decompresses to the record
    of these five, [revoked] included. *)
Theorem decompress_fails_on_shape :
  (forall v, fails_with (decompress v) ArrayShapeMismatch
             <-> array_of_length 5 v = false)
  /\ (forall v, fails_with (decompressQuote v) ArrayShapeMismatch
                <-> array_of_length 6 v = false
                    \/ array_of_length 3 (cost_slot v) = false)
  /\ (forall v, fails_with (decompressAttesterSignedQuote v) ArrayShapeMismatch
                <-> array_of_length 7 v = false
                    \/ array_of_length 3 (cost_slot v) = false)
  /\ (forall v, fails_with (decompressQuoteAgreement v) ArrayShapeMismatch
                <-> array_of_length 9 v = false
                    \/ array_of_length 3 (cost_slot v) = false)
  /\ (forall v e,
         decompress v = Throw e
         \/ decompressQuote v = Throw e
         \/ decompressAttesterSignedQuote v = Throw e
         \/ decompressQuoteAgreement v = Throw e ->
         kind_of e = Some ArrayShapeMismatch)
  /\ (forall ch ct o r d : value,
         decompress (VArr [ch; ct; o; r; d])
         = Ok {| claimHash := ch; AttestationUtils.cTypeHash := ct;
                 owner := o; revoked := r; delegationId := d |})
  /\ (forall ch ct o d : value,
         exists a, decompress (VArr [ch; ct; o; VBool false; d]) = Ok a
                   /\ revoked a = VBool false).
Proof.
  split; [exact decompress_shape |].
  split; [exact decompressQuote_shape |].
  split; [exact decompressAttesterSignedQuote_shape |].
  split; [exact decompressQuoteAgreement_shape |].
  split; [exact decompress_throws_shape_only |].
  split; [reflexivity |].
  intros ch ct o d. eexists. split; reflexivity.
Qed.

(** C5, as stated, fails for a quote: this tuple is an array of the arity
    of a Quote, six, and [decompressQuote] still throws the decompression
    error, because its cost slot holds [null]. *)
Lemma decompressQuote_arity_6_still_fails :
  array_of_length 6
    (VArr [VStr "5Alice"; VStr "0xc7"; VNull; VStr "EUR";
           VStr "https://terms"; VStr "2020-01-01"]) = true
  /\ decompressQuote
       (VArr [VStr "5Alice"; VStr "0xc7"; VNull; VStr "EUR";
              VStr "https://terms"; VStr "2020-01-01"])
     = Throw (SDK (ERROR_DECOMPRESSION_ARRAY (Some "Cost Breakdown")))
  /\ ~ (fails_with
          (decompressQuote
             (VArr [VStr "5Alice"; VStr "0xc7"; VNull; VStr "EUR";
                    VStr "https://terms"; VStr "2020-01-01"]))
          ArrayShapeMismatch
        <-> array_of_length 6
              (VArr [VStr "5Alice"; VStr "0xc7"; VNull; VStr "EUR";
                     VStr "https://terms"; VStr "2020-01-01"]) = false).
Proof.
  split; [reflexivity |]. split; [reflexivity |].
  intros [H _].
  assert (F : fails_with
                (decompressQuote
                   (VArr [VStr "5Alice"; VStr "0xc7"; VNull; VStr "EUR";
                          VStr "https://terms"; VStr "2020-01-01"]))
                ArrayShapeMismatch).
  { eexists. split; reflexivity. }
  specialize (H F). discriminate.
Qed.

End ShapeFacts.

Section RoundTrip.
Context {DU : DataUtils}.
Import AttestationUtils QuoteUtils.

Ltac bools :=
  repeat match goal with
    | H : _ && _ = true |- _ => apply andb_prop in H; destruct H
    | H : negb _ = true |- _ => apply negb_true_iff in H
    | H : _ || _ = false |- _ => apply orb_false_elim in H; destruct H
    end.

(** Split a value that some [_tuple] predicate accepted into its slots. *)
Ltac slots t H :=
  destruct t as [ | | ? | ? | ? | t | ? ]; try discriminate H;
  repeat (destruct t as [ | ? t ]; try discriminate H).

Lemma cost_round_trip (c : ICostBreakdown) :
  Valid.cost c = true ->
  compressCost c = Ok (VArr [gross c; net c; tax c])
  /\ decompressCost (VArr [gross c; net c; tax c]) = Ok c.
Proof.
  intros H. unfold Valid.cost in H. bools.
  unfold compressCost, falsy. rewrite H, H1, H0. simpl.
  destruct c; split; reflexivity.
Qed.

Lemma cost_tuple_round_trip (t : value) :
  Valid.cost_tuple t = true ->
  exists c, decompressCost t = Ok c /\ compressCost c = Ok t.
Proof.
  intros H. slots t H. simpl in H.
  eexists. split; [reflexivity |].
  apply cost_round_trip in H. simpl in H. apply H.
Qed.

Lemma quote_round_trip (q : IQuote) :
  Valid.quote q = true ->
  exists t, compressQuote q = Ok t /\ decompressQuote t = Ok q.
Proof.
  intros H. unfold Valid.quote in H. bools.
  destruct (cost q) as [c |] eqn:Ec; [| discriminate].
  destruct (cost_round_trip c H0) as [Hc Hd].
  unfold compressQuote. rewrite H, Ec. simpl. rewrite Hc. simpl.
  eexists. split; [reflexivity |].
  clear Hd. destruct q; simpl in *. subst. destruct c. reflexivity.
Qed.

Ltac use_truthy :=
  repeat match goal with
    | H : truthy ?v = true |- context [ truthy ?v ] => rewrite H
    end.

(** In a goal about a quote tuple whose cost slot is well formed, run the
    cost codec on that slot. *)
Ltac cost_slot_round_trip :=
  match goal with
  | H : Valid.cost_tuple ?c = true |- _ =>
      let x := fresh "c" in
      let Hd := fresh "Hd" in
      let Hc := fresh "Hc" in
      destruct (cost_tuple_round_trip c H) as [x [Hd Hc]];
      unfold index; simpl; rewrite Hd; simpl;
      eexists; split; [reflexivity |];
      unfold quote_fields_missing, falsy; simpl; use_truthy; simpl;
      rewrite Hc; reflexivity
  end.

Lemma quote_tuple_round_trip (t : value) :
  Valid.quote_tuple t = true ->
  exists q, decompressQuote t = Ok q /\ compressQuote q = Ok t.
Proof.
  intros H. slots t H. simpl in H. bools.
  unfold decompressQuote, compressQuote. cost_slot_round_trip.
Qed.

Lemma attesterSignedQuote_round_trip (r : IQuoteAttesterSigned) :
  Valid.attesterSignedQuote r = true ->
  exists t, compressAttesterSignedQuote r = Ok t
            /\ decompressAttesterSignedQuote t = Ok r.
Proof.
  intros H. unfold Valid.attesterSignedQuote, Valid.quote in H. bools.
  destruct (cost (quote r)) as [c |] eqn:Ec; [| discriminate].
  match goal with
  | V : Valid.cost c = true |- _ =>
      destruct (cost_round_trip c V) as [Hc _]
  end.
  unfold compressAttesterSignedQuote, falsy. simpl.
  rewrite H, H0, Ec. simpl. rewrite Hc. simpl.
  eexists. split; [reflexivity |].
  destruct r as [q sig]; destruct q; simpl in *. subst. destruct c.
  reflexivity.
Qed.

Lemma attesterSignedQuote_tuple_round_trip (t : value) :
  Valid.attesterSignedQuote_tuple t = true ->
  exists r, decompressAttesterSignedQuote t = Ok r
            /\ compressAttesterSignedQuote r = Ok t.
Proof.
  intros H. slots t H. simpl in H. bools.
  unfold decompressAttesterSignedQuote, compressAttesterSignedQuote.
  cost_slot_round_trip.
Qed.

Lemma quoteAgreement_round_trip (g : IQuoteAgreement) :
  Valid.quoteAgreement g = true ->
  exists t, compressQuoteAgreement g = Ok t
            /\ decompressQuoteAgreement t = Ok g.
Proof.
  intros H.
  unfold Valid.quoteAgreement, Valid.attesterSignedQuote, Valid.quote in H.
  bools.
  destruct (cost (quote (signedQuote g))) as [c |] eqn:Ec; [| discriminate].
  match goal with
  | V : Valid.cost c = true |- _ =>
      destruct (cost_round_trip c V) as [Hc _]
  end.
  unfold compressQuoteAgreement, falsy. simpl.
  rewrite H, H0, Ec. simpl. rewrite Hc. simpl.
  eexists. split; [reflexivity |].
  destruct g as [r cs root]; destruct r as [q sig]; destruct q; simpl in *.
  subst. destruct c. reflexivity.
Qed.

Lemma quoteAgreement_tuple_round_trip (t : value) :
  Valid.quoteAgreement_tuple t = true ->
  exists g, decompressQuoteAgreement t = Ok g
            /\ compressQuoteAgreement g = Ok t.
Proof.
  intros H. slots t H. simpl in H. bools.
  unfold decompressQuoteAgreement, compressQuoteAgreement.
  cost_slot_round_trip.
Qed.

Lemma attestation_round_trip (a : IAttestation) :
  Valid.attestation a = true ->
  exists t, compress a = Ok t /\ decompress t = Ok a.
Proof.
  intros H. rewrite (compress_valid a H).
  eexists. split; [reflexivity |]. destruct a. reflexivity.
Qed.

Lemma attestation_tuple_round_trip (t : value) :
  Valid.attestation_tuple t = true ->
  exists a, decompress t = Ok a /\ compress a = Ok t.
Proof.
  intros H. slots t H. simpl in H.
  unfold decompress, index. simpl.
  eexists. split; [reflexivity |].
  rewrite (compress_valid _ H). reflexivity.
Qed.

(** C4. For every valid record [r] of the types Attestation, Quote,
    AttesterSignedQuote, QuoteAgreement and CostBreakdown, [compress r]
    returns a tuple that [decompress] maps back to [r]; and for every
    well-formed tuple [t] of the arity of such a type, [decompress t]
    returns a record that [compress] maps back to [t].  A record is valid,
    and a tuple well formed, when the fields that [compress] requires are
    present (module [Valid]). *)
Theorem codec_round_trip :
  (forall a, Valid.attestation a = true ->
             exists t, compress a = Ok t /\ decompress t = Ok a)
  /\ (forall t, Valid.attestation_tuple t = true ->
                exists a, decompress t = Ok a /\ compress a = Ok t)
  /\ (forall q, Valid.quote q = true ->
                exists t, compressQuote q = Ok t /\ decompressQuote t = Ok q)
  /\ (forall t, Valid.quote_tuple t = true ->
                exists q, decompressQuote t = Ok q /\ compressQuote q = Ok t)
  /\ (forall r, Valid.attesterSignedQuote r = true ->
                exists t, compressAttesterSignedQuote r = Ok t
                          /\ decompressAttesterSignedQuote t = Ok r)
  /\ (forall t, Valid.attesterSignedQuote_tuple t = true ->
                exists r, decompressAttesterSignedQuote t = Ok r
                          /\ compressAttesterSignedQuote r = Ok t)
  /\ (forall g, Valid.quoteAgreement g = true ->
                exists t, compressQuoteAgreement g = Ok t
                          /\ decompressQuoteAgreement t = Ok g)
  /\ (forall t, Valid.quoteAgreement_tuple t = true ->
                exists g, decompressQuoteAgreement t = Ok g
                          /\ compressQuoteAgreement g = Ok t)
  /\ (forall c, Valid.cost c = true ->
                exists t, compressCost c = Ok t /\ decompressCost t = Ok c)
  /\ (forall t, Valid.cost_tuple t = true ->
                exists c, decompressCost t = Ok c /\ compressCost c = Ok t).
Proof.
  split; [exact attestation_round_trip |].
  split; [exact attestation_tuple_round_trip |].
  split; [exact quote_round_trip |].
  split; [exact quote_tuple_round_trip |].
  split; [exact attesterSignedQuote_round_trip |].
  split; [exact attesterSignedQuote_tuple_round_trip |].
  split; [exact quoteAgreement_round_trip |].
  split; [exact quoteAgreement_tuple_round_trip |].
  split; [| exact cost_tuple_round_trip].
  intros c H. destruct (cost_round_trip c H). eauto.
Qed.

End RoundTrip.

(** ** Claim construction *)

Section ClaimFacts.
Context {V : Claim.Validators}.
Import Claim.

Lemma constructor_accepts (claimInput : IClaim) (c : Claim.Claim) :
  constructor claimInput = Ok c
  <-> errorCheck_ok claimInput = true
      /\ c = {| this_cTypeHash := cTypeHash claimInput;
                this_contents := contents claimInput;
                this_owner := owner claimInput |}.
Proof.
  unfold constructor, errorCheck. simpl.
  destruct (errorCheck_ok claimInput); split.
  - intros E. injection E as <-. split; reflexivity.
  - intros [_ ->]. reflexivity.
  - discriminate.
  - intros [E _]. discriminate.
Qed.

(** C7, as the code has it. The three factories validate before they
    construct: [fromClaim] and [fromNestedCTypeClaim] throw on contents that
    their validator rejects, [fromCTypeAndClaimContents] does so when the
    CType carries a schema, and a claim that one of them returns holds
    contents that passed.  The public constructor takes no schema: it
    returns an instance exactly when [ClaimUtils.errorCheck] passes. *)
Theorem claim_factories_validate :
  (forall claimInput cTypeSchema,
      verifyClaim (contents claimInput) cTypeSchema = false ->
      fromClaim claimInput cTypeSchema = Throw (SDK ERROR_CLAIM_UNVERIFIABLE))
  /\ (forall cTypeInput nestedCType claimContents claimOwner,
         validateNestedSchemas (schema cTypeInput) nestedCType claimContents
         = false ->
         fromNestedCTypeClaim cTypeInput nestedCType claimContents claimOwner
         = Throw (SDK ERROR_NESTED_CLAIM_UNVERIFIABLE))
  /\ (forall ctypeInput claimContents claimOwner,
         truthy (schema ctypeInput) = true ->
         verifyClaim claimContents (schema ctypeInput) = false ->
         fromCTypeAndClaimContents ctypeInput claimContents claimOwner
         = Throw (SDK ERROR_CLAIM_UNVERIFIABLE))
  /\ (forall claimInput cTypeSchema c,
         fromClaim claimInput cTypeSchema = Ok c ->
         verifyClaim (this_contents c) cTypeSchema = true)
  /\ (forall cTypeInput nestedCType claimContents claimOwner c,
         fromNestedCTypeClaim cTypeInput nestedCType claimContents claimOwner
         = Ok c ->
         validateNestedSchemas (schema cTypeInput) nestedCType
           (this_contents c) = true)
  /\ (forall ctypeInput claimContents claimOwner c,
         truthy (schema ctypeInput) = true ->
         fromCTypeAndClaimContents ctypeInput claimContents claimOwner = Ok c ->
         verifyClaim (this_contents c) (schema ctypeInput) = true)
  /\ (forall claimInput c,
         constructor claimInput = Ok c
         <-> errorCheck_ok claimInput = true
             /\ c = {| this_cTypeHash := cTypeHash claimInput;
                       this_contents := contents claimInput;
                       this_owner := owner claimInput |}).
Proof.
  repeat apply conj.
  - intros i s H. unfold fromClaim. rewrite H. reflexivity.
  - intros t n c o H. unfold fromNestedCTypeClaim. rewrite H. reflexivity.
  - intros t c o T H. unfold fromCTypeAndClaimContents. rewrite T, H.
    reflexivity.
  - intros i s c. unfold fromClaim.
    destruct (verifyClaim (contents i) s) eqn:E; simpl; [| discriminate].
    intros H. apply constructor_accepts in H as [_ ->]. exact E.
  - intros t n x o c. unfold fromNestedCTypeClaim.
    destruct (validateNestedSchemas (schema t) n x) eqn:E; simpl;
      [| discriminate].
    intros H. apply constructor_accepts in H as [_ ->]. exact E.
  - intros t x o c T. unfold fromCTypeAndClaimContents. rewrite T.
    destruct (verifyClaim x (schema t)) eqn:E; simpl; [| discriminate].
    intros H. apply constructor_accepts in H as [_ ->]. exact E.
  - exact constructor_accepts.
Qed.

End ClaimFacts.

(** C7, as stated, fails on two paths. The contents give [name] as a
    number where the schema asks for a string, and do not validate against
    it; the CType hash and the owner's address are well formed.  Still
    [new Claim] returns an instance that holds these contents, and so does
    [fromCTypeAndClaimContents] for a CType that carries no [schema]. *)
Lemma claim_exists_with_unvalidated_contents :
  Claim.verifyClaim (V := Toy.claimValidators) Sample.contents_off_schema
    Sample.schema = false
  /\ Claim.constructor (V := Toy.claimValidators)
       {| Claim.cTypeHash := Sample.cTypeHash;
          Claim.contents := Sample.contents_off_schema;
          Claim.owner := Sample.bobAddress |}
     = Ok {| Claim.this_cTypeHash := Sample.cTypeHash;
             Claim.this_contents := Sample.contents_off_schema;
             Claim.this_owner := Sample.bobAddress |}
  /\ Claim.fromCTypeAndClaimContents (V := Toy.claimValidators)
       {| Claim.hash := Sample.cTypeHash; Claim.schema := VUndefined |}
       Sample.contents_off_schema Sample.bobAddress
     = Ok {| Claim.this_cTypeHash := Sample.cTypeHash;
             Claim.this_contents := Sample.contents_off_schema;
             Claim.this_owner := Sample.bobAddress |}.
Proof. repeat split; vm_compute; reflexivity. Qed.

(** ** The message envelope *)

Lemma strict_equals_string (v : value) (s : string) :
  strict_equals v (VStr s) = true <-> v = VStr s.
Proof.
  destruct v; simpl; split; try discriminate.
  - intros H. apply String.eqb_eq in H. subst. reflexivity.
  - intros H. injection H as ->. apply String.eqb_refl.
Qed.

Lemma owner_check_result (owner : value) (sender context : string) :
  Message.owner_check owner sender context
  = if strict_equals owner (VStr sender) then Ok tt
    else Throw (SDK (ERROR_IDENTITY_MISMATCH context "Sender")).
Proof.
  unfold Message.owner_check.
  destruct (strict_equals owner (VStr sender)); reflexivity.
Qed.

(** The case [SUBMIT_ATTESTATION_FOR_CLAIM] of [ensureOwnerIsSender]. *)
Lemma ensureOwnerIsSender_submit_attestation
    (body content attestation owner : value) (sender : string) :
  get body "type"
  = Ok (VStr (Message.tag Message.SUBMIT_ATTESTATION_FOR_CLAIM)) ->
  get body "content" = Ok content ->
  get content "attestation" = Ok attestation ->
  get attestation "owner" = Ok owner ->
  Message.ensureOwnerIsSender body sender
  = if strict_equals owner (VStr sender) then Ok tt
    else Throw (SDK (ERROR_IDENTITY_MISMATCH "Attestation" "Sender")).
Proof.
  intros Ht Hc Ha Ho. unfold Message.ensureOwnerIsSender.
  rewrite Ht. simpl. rewrite Hc. simpl. rewrite Ha. simpl. rewrite Ho. simpl.
  apply owner_check_result.
Qed.

(** An array has no [type]: the [switch] falls through to [default]. *)
Lemma ensureOwnerIsSender_array (items : list value) (sender : string) :
  Message.ensureOwnerIsSender (VArr items) sender = Ok tt.
Proof. reflexivity. Qed.

Lemma tag_injective (j k : Message.MessageBodyType) :
  Message.tag j = Message.tag k -> j = k.
Proof. destruct j, k; simpl; intros H; solve [reflexivity | discriminate H]. Qed.

Lemma is_case_tag (j k : Message.MessageBodyType) :
  Message.is_case (VStr (Message.tag j)) k = true <-> j = k.
Proof.
  unfold Message.is_case. rewrite strict_equals_string. split.
  - intros H. injection H as H. apply tag_injective. exact H.
  - intros ->. reflexivity.
Qed.

(** C10. For every message body whose [type] is none of
    REQUEST_ATTESTATION_FOR_CLAIM, SUBMIT_ATTESTATION_FOR_CLAIM and
    SUBMIT_CLAIMS_FOR_CTYPES_CLASSIC, [ensureOwnerIsSender] returns without
    throwing, whatever the content holds and whoever the sender is; and
    each of the three kinds has a body and a sender on which it throws the
    identity mismatch: the owner is bound for exactly these three. *)
Theorem owner_binding_only_for_three_kinds :
  (forall (body type : value) (senderAddress : string),
      get body "type" = Ok type ->
      (forall k, In k owner_bound_kinds -> Message.is_case type k = false) ->
      Message.ensureOwnerIsSender body senderAddress = Ok tt)
  /\ (forall (k : Message.MessageBodyType) (content : value)
             (senderAddress : string),
         ~ In k owner_bound_kinds ->
         Message.ensureOwnerIsSender
           (VObj [("type", VStr (Message.tag k)); ("content", content)])
           senderAddress
         = Ok tt)
  /\ (forall k, In k owner_bound_kinds ->
                exists body senderAddress,
                  get body "type" = Ok (VStr (Message.tag k))
                  /\ fails_with
                       (Message.ensureOwnerIsSender body senderAddress)
                       IdentityMismatch).
Proof.
  assert (A : forall (body type : value) (senderAddress : string),
             get body "type" = Ok type ->
             (forall k, In k owner_bound_kinds ->
                        Message.is_case type k = false) ->
             Message.ensureOwnerIsSender body senderAddress = Ok tt).
  { intros body type sender Ht Hk. unfold Message.ensureOwnerIsSender.
    rewrite Ht. simpl.
    rewrite (Hk Message.REQUEST_ATTESTATION_FOR_CLAIM) by (simpl; tauto).
    rewrite (Hk Message.SUBMIT_ATTESTATION_FOR_CLAIM) by (simpl; tauto).
    rewrite (Hk Message.SUBMIT_CLAIMS_FOR_CTYPES_CLASSIC) by (simpl; tauto).
    reflexivity. }
  split; [exact A |]. split.
  - intros k content sender Hk.
    apply A with (type := VStr (Message.tag k)); [reflexivity |].
    intros j Hj. destruct (Message.is_case (VStr (Message.tag k)) j) eqn:E;
      [| reflexivity].
    apply is_case_tag in E. subst j. contradiction.
  - intros k Hk. simpl in Hk. destruct Hk as [<- | [<- | [<- | []]]].
    + exists (VObj [("type", VStr "request-attestation-for-claim");
                    ("content",
                      VObj [("requestForAttestation",
                              VObj [("claim",
                                      VObj [("owner", VStr "5Bob")])])])]).
      exists "5Alice". split; [reflexivity |].
      eexists. split; reflexivity.
    + exists (Sample.submitAttestation "5Bob"), "5Alice".
      split; [reflexivity |]. eexists. split; reflexivity.
    + exists (VObj [("type", VStr "submit-claims-for-ctypes-classic");
                    ("content",
                      VArr [VObj [("request",
                                    VObj [("claim",
                                            VObj [("owner",
                                                    VStr "5Alice")])])];
                            VObj [("request",
                                    VObj [("claim",
                                            VObj [("owner",
                                                    VStr "5Bob")])])]])]).
      exists "5Alice". split; [reflexivity |].
      eexists. split; reflexivity.
Qed.

Section MessageFacts.
Context {DU : DataUtils} {C : Message.Collaborators}.
Import Message.

(** Run [decrypt e r] through its checks: one goal per way out. *)
Ltac run_decrypt e r :=
  unfold decrypt, ensureHashAndSignature, validateSignature, parse_or_throw,
    call, traced_throw, traced_try_catch; simpl;
  destruct (hashStr (hashInput e) =? hash e) eqn:Hhash; simpl;
  [ destruct (validateSignature_ok (hash e) (signature e) (senderAddress e))
      eqn:Hsig; simpl;
    [ destruct (decryptAsymmetricAsStr r (message e, nonce e)
                  (senderBoxPublicKey e)) as [text |] eqn:Hdec; simpl;
      [ destruct (text =? EmptyString) eqn:Htext; simpl;
        [ | destruct (JSON_parse text) as [parsed |] eqn:Hparse; simpl;
            [ destruct (ensureOwnerIsSender parsed (senderAddress e))
                as [[] | x] eqn:Howner; simpl | ] ]
      | ]
    | ]
  | ].

Ltac string_eqs :=
  repeat match goal with
    | H : (_ =? _) = true |- _ => apply String.eqb_eq in H
    | H : (_ =? _) = false |- _ => apply String.eqb_neq in H
    end.

(** C1. For every encrypted envelope and receiver, [decrypt] makes its
    checks in the order hash verification, signature verification,
    asymmetric decryption, payload parsing, owner binding: the calls it
    makes are a prefix of that sequence; a check is reached only when all
    checks before it succeeded, so the ciphertext is not handed to the box
    before the hash compared equal and the signature verified; and it
    returns an envelope exactly when all five succeeded, after all five
    ran, so that a failure at any step is a throw and no payload. *)
Theorem decrypt_check_order :
  forall (encrypted : IEncryptedMessage) (receiver : Identity),
    is_prefix (stages (decrypt encrypted receiver)) pipeline
    /\ (In SignatureVerification (stages (decrypt encrypted receiver)) ->
        hash_matches encrypted)
    /\ (In AsymmetricDecryption (stages (decrypt encrypted receiver)) ->
        hash_matches encrypted /\ signature_valid encrypted)
    /\ (In PayloadParsing (stages (decrypt encrypted receiver)) ->
        hash_matches encrypted /\ signature_valid encrypted
        /\ exists text, opens_to encrypted receiver text)
    /\ (In OwnerBinding (stages (decrypt encrypted receiver)) ->
        hash_matches encrypted /\ signature_valid encrypted
        /\ exists text, opens_to encrypted receiver text
                        /\ JSON_parse text <> None)
    /\ (forall m,
           outcome (decrypt encrypted receiver) = Ok m
           <-> hash_matches encrypted /\ signature_valid encrypted
               /\ (exists text,
                      opens_to encrypted receiver text
                      /\ JSON_parse text = Some (body m))
               /\ ensureOwnerIsSender (body m) (senderAddress encrypted)
                  = Ok tt
               /\ wire m = encrypted)
    /\ (forall m,
           outcome (decrypt encrypted receiver) = Ok m ->
           stages (decrypt encrypted receiver) = pipeline).
Proof.
  intros e r.
  unfold stages, calls, outcome, hash_matches, signature_valid, opens_to,
    is_prefix.
  run_decrypt e r; string_eqs.
  all: repeat apply conj.
  all: try solve [ eexists; reflexivity ].
  all: try solve [ intros m E; discriminate E ].
  all: try solve [ intros H; simpl in H; intuition discriminate ].
  all: try solve [ intros _; eauto ].
  all: try solve [ intros _; repeat split; eauto;
                   eexists; repeat split; eauto; congruence ].
  all: try solve [ reflexivity ].
  all: intros m; split.
  all: try solve [ intros E; discriminate E ].
  all: try solve [ intros (H1 & H2 & (t & (H3 & H4) & H5) & H6 & H7);
                   congruence ].
  - intros E. injection E as <-. simpl. repeat split; eauto.
  - intros (H1 & H2 & (t & (H3 & H4) & H5) & H6 & H7).
    destruct m as [b w]. simpl in *. subst w.
    assert (t = text) by congruence. subst t.
    assert (b = parsed) by congruence. subst b. reflexivity.
Qed.

Lemma hashInput_transport (e1 e2 : IEncryptedMessage) :
  differ_only_in_transport_fields e1 e2 -> hashInput e2 = hashInput e1.
Proof.
  intros (Hm & Hn & Hc & _). unfold hashInput. rewrite Hm, Hn, Hc.
  reflexivity.
Qed.

(** C9. Two encrypted envelopes that differ only in [messageId],
    [receivedAt] or [receiverAddress] fare alike under [decrypt] with the
    same receiver: both make the same calls, and either both return, with
    the same body, or both throw, the same error; so a change of these
    fields never brings about the hash error or the signature error. *)
Theorem decrypt_ignores_transport_fields :
  forall (e1 e2 : IEncryptedMessage) (receiver : Identity),
    differ_only_in_transport_fields e1 e2 ->
    calls (decrypt e1 receiver) = calls (decrypt e2 receiver)
    /\ match outcome (decrypt e1 receiver),
             outcome (decrypt e2 receiver) with
       | Ok m1, Ok m2 => body m1 = body m2
       | Throw x1, Throw x2 => x1 = x2
       | _, _ => False
       end
    /\ (forall k : ErrorKind,
           fails_with (outcome (decrypt e1 receiver)) k
           <-> fails_with (outcome (decrypt e2 receiver)) k).
Proof.
  intros e1 e2 r D. pose proof (hashInput_transport D) as HI.
  destruct D as (Hm & Hn & Hc & Hh & Hs & Ha & Hk).
  unfold calls, outcome, fails_with.
  unfold decrypt, ensureHashAndSignature. simpl.
  rewrite HI, <- Hm, <- Hn, <- Hh, <- Hs, <- Ha, <- Hk.
  run_decrypt e1 r.
  all: repeat apply conj; try reflexivity.
  all: intros k; split; intros (x0 & E & K); try discriminate E.
  all: exists x0; split; [exact E | exact K].
Qed.

(** C2, what the code does. Let an encrypted envelope pass the hash and the
    signature check, open, and parse to a body of type
    SUBMIT_ATTESTATION_FOR_CLAIM with an [attestation.owner].  If the owner
    is not the [senderAddress] of the envelope, [ensureOwnerIsSender] raises
    the identity mismatch, and [decrypt] throws [ERROR_PARSING_MESSAGE] in
    its place: the [catch] written for a text that does not parse also
    takes the throw of the owner check.  If the owner is the
    [senderAddress], [decrypt] returns the envelope with that body. *)
Theorem decrypt_owner_binding :
  forall (encrypted : IEncryptedMessage) (receiver : Identity)
         (text : string) (parsed content attestation owner : value),
    hash_matches encrypted ->
    signature_valid encrypted ->
    opens_to encrypted receiver text ->
    JSON_parse text = Some parsed ->
    get parsed "type" = Ok (VStr (tag SUBMIT_ATTESTATION_FOR_CLAIM)) ->
    get parsed "content" = Ok content ->
    get content "attestation" = Ok attestation ->
    get attestation "owner" = Ok owner ->
    (owner <> VStr (senderAddress encrypted) ->
     Message.ensureOwnerIsSender parsed (senderAddress encrypted)
     = Throw (SDK (ERROR_IDENTITY_MISMATCH "Attestation" "Sender"))
     /\ outcome (decrypt encrypted receiver)
        = Throw (SDK ERROR_PARSING_MESSAGE))
    /\ (owner = VStr (senderAddress encrypted) ->
        outcome (decrypt encrypted receiver)
        = Ok {| body := parsed; wire := encrypted |}).
Proof.
  intros e r txt parsed0 content att owner Hh Hs [Hd Hne] Hp Ht Hc Ha Ho.
  pose proof (ensureOwnerIsSender_submit_attestation _ (senderAddress e)
                Ht Hc Ha Ho) as EO.
  unfold hash_matches in Hh. unfold signature_valid in Hs.
  unfold outcome.
  run_decrypt e r; string_eqs; try congruence.
  all: assert (text = txt) by congruence; subst text.
  all: assert (parsed = parsed0) by congruence; subst parsed.
  - split.
    + intros Hneq. exfalso.
      destruct (strict_equals owner (VStr (senderAddress e))) eqn:E.
      * apply strict_equals_string in E. contradiction.
      * congruence.
    + reflexivity.
  - split.
    + intros Hneq. split; [| reflexivity].
      destruct (strict_equals owner (VStr (senderAddress e))) eqn:E.
      * apply strict_equals_string in E. contradiction.
      * congruence.
    + intros ->. exfalso.
      assert (E : strict_equals (VStr (senderAddress e))
                    (VStr (senderAddress e)) = true)
        by (apply strict_equals_string; reflexivity).
      rewrite E in EO. congruence.
Qed.

Lemma decrypt_returns
    (e : IEncryptedMessage) (r : Identity) (txt : string) (b : value) :
  hash_matches e -> signature_valid e -> opens_to e r txt ->
  JSON_parse txt = Some b ->
  Message.ensureOwnerIsSender b (senderAddress e) = Ok tt ->
  outcome (decrypt e r) = Ok {| body := b; wire := e |}.
Proof.
  unfold hash_matches, signature_valid, opens_to, outcome.
  intros Hh Hs [Hd Hne] Hp Ho.
  run_decrypt e r; string_eqs; congruence.
Qed.

Lemma isArray_inv (v : value) :
  isArray v = true -> exists items, v = VArr items.
Proof. destruct v; try discriminate. eauto. Qed.

(** C3, what the code does. For a body given in compressed-array form the
    constructor stores the decompressed payload as [this.body], but encrypts
    the JSON text of its argument, the array.  The envelope it emits
    verifies; when the receiver opens it and the text parses back to an
    array, [decrypt] returns that array as the body, with no owner check
    applied to it, and not the structured payload. *)
Theorem constructor_encrypts_compressed_form :
  forall (body structured : value) (sender : Identity)
         (receiver : IPublicIdentity) (now : Z),
    isArray body = true ->
    decompressMessage body = Ok structured ->
    exists m : IMessage,
      constructor body sender receiver now = Ok m
      /\ Message.body m = structured
      /\ message (encrypt m)
         = fst (encryptAsymmetricAsStr sender (JSON_stringify body)
                  (boxPublicKeyAsHex receiver))
      /\ hash_matches (encrypt m)
      /\ (forall (receiverIdentity : Identity) (received : value),
             signature_valid (encrypt m) ->
             opens_to (encrypt m) receiverIdentity (JSON_stringify body) ->
             JSON_parse (JSON_stringify body) = Some received ->
             isArray received = true ->
             outcome (decrypt (encrypt m) receiverIdentity)
             = Ok {| Message.body := received; wire := encrypt m |}
             /\ (isArray structured = false -> received <> structured)).
Proof.
  intros b structured sender receiver now Harr Hdec.
  unfold constructor. rewrite Harr, Hdec. simpl.
  eexists. split; [reflexivity |]. split; [reflexivity |].
  split; [reflexivity |]. split; [reflexivity |].
  intros rid received Hs Ho Hp Hr. split.
  - apply decrypt_returns with (txt := JSON_stringify b); try assumption.
    + reflexivity.
    + destruct (isArray_inv _ Hr) as [items ->].
      apply ensureOwnerIsSender_array.
  - intros Hn E. subst received. congruence.
Qed.

End MessageFacts.

(** ** Concrete runs *)

Section Runs.
Import Toy Sample Message.

(** C2 at a failing input: Alice sends Bob an attestation submission whose
    attestation is owned by Bob.  The envelope passes the hash and the
    signature check, opens, and parses to that body; the owner differs from
    the sender; and [decrypt] throws [ERROR_PARSING_MESSAGE], not the
    identity mismatch. *)
Lemma decrypt_owner_mismatch_reports_parsing_error :
  hash_matches (sent (submitAttestation "5Bob") alice bob now)
  /\ signature_valid (sent (submitAttestation "5Bob") alice bob now)
  /\ opens_to (sent (submitAttestation "5Bob") alice bob now) bob
       (stringify (submitAttestation "5Bob"))
  /\ JSON_parse (stringify (submitAttestation "5Bob"))
     = Some (submitAttestation "5Bob")
  /\ get (submitAttestation "5Bob") "type"
     = Ok (VStr (tag SUBMIT_ATTESTATION_FOR_CLAIM))
  /\ senderAddress (sent (submitAttestation "5Bob") alice bob now) = "5Alice"
  /\ outcome (decrypt (sent (submitAttestation "5Bob") alice bob now) bob)
     = Throw (SDK ERROR_PARSING_MESSAGE)
  /\ ~ fails_with
         (outcome (decrypt (sent (submitAttestation "5Bob") alice bob now)
                     bob))
         IdentityMismatch.
Proof.
  split; [vm_compute; reflexivity |].
  split; [vm_compute; reflexivity |].
  split; [split; [vm_compute; reflexivity | vm_compute; discriminate] |].
  split; [vm_compute; reflexivity |].
  split; [reflexivity |].
  split; [reflexivity |].
  split; [vm_compute; reflexivity |].
  intros (e & E & K). vm_compute in E. injection E as <-. discriminate K.
Qed.

(** Both branches of the owner binding on the sample envelopes: a foreign
    owner, and the sender as owner. *)
Lemma decrypt_owner_binding_witness :
  ( outcome (decrypt (sent (submitAttestation "5Bob") alice bob now) bob)
    = Throw (SDK ERROR_PARSING_MESSAGE) )
  /\ ( outcome (decrypt (sent (submitAttestation "5Alice") alice bob now) bob)
       = Ok {| body := submitAttestation "5Alice";
               wire := sent (submitAttestation "5Alice") alice bob now |} ).
Proof.
  split.
  - refine (proj2 (proj1
      (@decrypt_owner_binding dataUtils collaborators
         (sent (submitAttestation "5Bob") alice bob now) bob
         (stringify (submitAttestation "5Bob"))
         (submitAttestation "5Bob")
         (VObj [("attestation", attestation "5Bob")])
         (attestation "5Bob") (VStr "5Bob")
         _ _ _ _ _ _ _ _) _)).
    + vm_compute; reflexivity.
    + vm_compute; reflexivity.
    + split; [vm_compute; reflexivity | vm_compute; discriminate].
    + vm_compute; reflexivity.
    + reflexivity.
    + reflexivity.
    + reflexivity.
    + reflexivity.
    + vm_compute; discriminate.
  - refine (proj2
      (@decrypt_owner_binding dataUtils collaborators
         (sent (submitAttestation "5Alice") alice bob now) bob
         (stringify (submitAttestation "5Alice"))
         (submitAttestation "5Alice")
         (VObj [("attestation", attestation "5Alice")])
         (attestation "5Alice") (VStr "5Alice")
         _ _ _ _ _ _ _ _) _).
    + vm_compute; reflexivity.
    + vm_compute; reflexivity.
    + split; [vm_compute; reflexivity | vm_compute; discriminate].
    + vm_compute; reflexivity.
    + reflexivity.
    + reflexivity.
    + reflexivity.
    + reflexivity.
    + vm_compute; reflexivity.
Defined.

(** A carrier relabels an envelope; the receiver makes the same calls. *)
Lemma decrypt_ignores_transport_fields_witness :
  differ_only_in_transport_fields
    (sent (submitAttestation "5Alice") alice bob now)
    (relabelled (sent (submitAttestation "5Alice") alice bob now))
  /\ receiverAddress (sent (submitAttestation "5Alice") alice bob now)
     <> receiverAddress
          (relabelled (sent (submitAttestation "5Alice") alice bob now))
  /\ calls (decrypt (sent (submitAttestation "5Alice") alice bob now) bob)
     = calls (decrypt
                (relabelled (sent (submitAttestation "5Alice") alice bob now))
                bob).
Proof.
  assert (D : differ_only_in_transport_fields
                (sent (submitAttestation "5Alice") alice bob now)
                (relabelled (sent (submitAttestation "5Alice") alice bob now))).
  { repeat split; reflexivity. }
  split; [exact D |].
  split; [vm_compute; discriminate |].
  exact (proj1 (@decrypt_ignores_transport_fields dataUtils collaborators
                  _ _ bob D)).
Defined.

(** Alice builds a message from the compressed form of a submission whose
    attestation Bob owns; Bob decrypts it and is handed the array. *)
Lemma constructor_encrypts_compressed_form_witness :
  isArray (compressedSubmitAttestation "5Bob") = true
  /\ decompressMessage (compressedSubmitAttestation "5Bob")
     = Ok (decompressedSubmitAttestation "5Bob")
  /\ exists m : IMessage,
       constructor (compressedSubmitAttestation "5Bob") alice
         (publicIdentity bob) now = Ok m
       /\ body m = decompressedSubmitAttestation "5Bob"
       /\ outcome (decrypt (encrypt m) bob)
          = Ok {| body := compressedSubmitAttestation "5Bob";
                  wire := encrypt m |}
       /\ compressedSubmitAttestation "5Bob"
          <> decompressedSubmitAttestation "5Bob".
Proof.
  assert (A : isArray (compressedSubmitAttestation "5Bob") = true)
    by reflexivity.
  assert (B : decompressMessage (compressedSubmitAttestation "5Bob")
              = Ok (decompressedSubmitAttestation "5Bob"))
    by reflexivity.
  split; [exact A |]. split; [exact B |].
  destruct (@constructor_encrypts_compressed_form dataUtils collaborators
              _ _ alice (publicIdentity bob) now A B)
    as (m & Hc & Hb & _ & _ & Hrun).
  exists m. split; [exact Hc |]. split; [exact Hb |].
  assert (R : outcome (decrypt (encrypt m) bob)
              = Ok {| body := compressedSubmitAttestation "5Bob";
                      wire := encrypt m |}
              /\ (isArray (decompressedSubmitAttestation "5Bob") = false ->
                  compressedSubmitAttestation "5Bob"
                  <> decompressedSubmitAttestation "5Bob")).
  { vm_compute in Hc. injection Hc as <-.
    apply (Hrun bob (compressedSubmitAttestation "5Bob")).
    - vm_compute; reflexivity.
    - split; [vm_compute; reflexivity | vm_compute; discriminate].
    - vm_compute; reflexivity.
    - reflexivity. }
  destruct R as [Ho Hne]. split; [exact Ho | apply Hne; reflexivity].
Defined.

(** The round trip on a sample quote agreement and attestation tuple. *)
Lemma codec_round_trip_witness :
  Valid.quoteAgreement Sample.quoteAgreement = true
  /\ (exists t,
         QuoteUtils.compressQuoteAgreement Sample.quoteAgreement = Ok t
         /\ QuoteUtils.decompressQuoteAgreement t = Ok Sample.quoteAgreement)
  /\ Valid.attestation_tuple
       (VArr [claimHash; cTypeHash; aliceAddress; VBool false; VNull])
     = true
  /\ (exists a,
         AttestationUtils.decompress
           (VArr [claimHash; cTypeHash; aliceAddress; VBool false; VNull])
         = Ok a
         /\ AttestationUtils.compress a
            = Ok (VArr [claimHash; cTypeHash; aliceAddress; VBool false;
                        VNull])).
Proof.
  destruct (@codec_round_trip dataUtils)
    as (_ & A2 & _ & _ & _ & _ & G1 & _).
  split; [reflexivity |].
  split; [apply G1; reflexivity |].
  split; [vm_compute; reflexivity |].
  apply A2. vm_compute; reflexivity.
Defined.

(** An attestation without owner, a cost with zero tax, and an attestation
    that is not revoked. *)
Lemma compress_rejects_missing_fields_witness :
  fails_with
    (AttestationUtils.compress
       {| AttestationUtils.claimHash := claimHash;
          AttestationUtils.cTypeHash := cTypeHash;
          AttestationUtils.owner := VUndefined;
          AttestationUtils.revoked := VBool false;
          AttestationUtils.delegationId := VNull |})
    MalformedRecord
  /\ QuoteUtils.compressCost
       {| QuoteUtils.gross := VNum 233; QuoteUtils.net := VNum 233;
          QuoteUtils.tax := VNum 0 |}
     = Throw (SDK (ERROR_COMPRESS_OBJECT "Cost Breakdown"))
  /\ AttestationUtils.compress
       {| AttestationUtils.claimHash := claimHash;
          AttestationUtils.cTypeHash := cTypeHash;
          AttestationUtils.owner := aliceAddress;
          AttestationUtils.revoked := VBool false;
          AttestationUtils.delegationId := VNull |}
     = Ok (VArr [claimHash; cTypeHash; aliceAddress; VBool false; VNull]).
Proof.
  destruct (@compress_rejects_missing_fields dataUtils)
    as (M & _ & _ & _ & _ & K & R).
  split; [apply M; simpl; tauto |].
  split; [apply K; simpl; tauto |].
  apply R; vm_compute; reflexivity.
Defined.

(** The factories on contents off and on the sample schema. *)
Lemma claim_factories_validate_witness :
  Claim.fromClaim
    {| Claim.cTypeHash := cTypeHash;
       Claim.contents := contents_off_schema;
       Claim.owner := bobAddress |} schema
  = Throw (SDK ERROR_CLAIM_UNVERIFIABLE)
  /\ Claim.fromCTypeAndClaimContents
       {| Claim.hash := cTypeHash; Claim.schema := schema |}
       contents_off_schema bobAddress
     = Throw (SDK ERROR_CLAIM_UNVERIFIABLE)
  /\ Claim.fromClaim
       {| Claim.cTypeHash := cTypeHash;
          Claim.contents := contents_on_schema;
          Claim.owner := bobAddress |} schema
     = Ok {| Claim.this_cTypeHash := cTypeHash;
             Claim.this_contents := contents_on_schema;
             Claim.this_owner := bobAddress |}.
Proof.
  destruct (@claim_factories_validate claimValidators)
    as (F1 & _ & F3 & _).
  split; [apply F1; vm_compute; reflexivity |].
  split; [apply F3; vm_compute; reflexivity |].
  vm_compute; reflexivity.
Defined.

(** A rejection of terms whose claim names a third party as owner passes. *)
Lemma owner_binding_only_for_three_kinds_witness :
  get rejectTerms "type" = Ok (VStr (tag REJECT_TERMS))
  /\ ensureOwnerIsSender rejectTerms "5Alice" = Ok tt.
Proof.
  split; [reflexivity |].
  apply (proj1 owner_binding_only_for_three_kinds rejectTerms
           (VStr (tag REJECT_TERMS)) "5Alice"); [reflexivity |].
  intros k [<- | [<- | [<- | []]]]; reflexivity.
Defined.

End Runs.

(* ===================================================================== *)
(** * Further properties of the codecs *)
(* ===================================================================== *)

Section AttestationMore.
Context {DU : DataUtils}.
Import AttestationUtils.

Lemma compress_succeeds_iff_valid (a : IAttestation) :
  accepts (compress a) = Valid.attestation a.
Proof.
  destruct (Valid.attestation a) eqn:V.
  - rewrite (compress_valid a V). reflexivity.
  - unfold compress. simpl.
    destruct (errorCheck a) as [[] | e] eqn:E; [| reflexivity].
    apply errorCheck_valid in E. congruence.
Qed.

(** With [cTypeHash], [claimHash] and [owner] in order, [compress] returns
    exactly when [revoked] is a boolean; on anything else, [undefined],
    [null], a number or a string included, it throws
    [ERROR_REVOCATION_BIT_MISSING]. *)
Theorem compress_requires_boolean_revoked :
  forall ch ct o r d : value,
    truthy ct && validateHash_ok ct "CType" = true ->
    truthy ch && validateHash_ok ch "Claim" = true ->
    truthy o && validateAddress_ok o "owner" = true ->
    let a := {| claimHash := ch; cTypeHash := ct; owner := o;
                revoked := r; delegationId := d |} in
    ((exists b, r = VBool b) -> compress a = Ok (VArr [ch; ct; o; r; d]))
    /\ ((forall b, r <> VBool b) ->
        compress a = Throw (SDK ERROR_REVOCATION_BIT_MISSING)).
Proof.
  intros ch ct o r d H1 H2 H3 a.
  apply andb_prop in H1 as [T1 V1]. apply andb_prop in H2 as [T2 V2].
  apply andb_prop in H3 as [T3 V3].
  apply truthy_not_falsy in T1. apply truthy_not_falsy in T2.
  apply truthy_not_falsy in T3.
  unfold a, compress, errorCheck, validateHash, validateAddress. simpl.
  rewrite T1, V1, T2, V2, T3, V3, delegationId_guard_false. simpl.
  split.
  - intros [b ->]. reflexivity.
  - intros H. destruct r; try reflexivity. exfalso. eapply H. reflexivity.
Qed.

(** Nothing is asked of [delegationId]: whatever value replaces it, of
    whatever type, [errorCheck] ends the same way, and [compress] returns
    on the one record exactly when it returns on the other, with the value
    given at the last position of the tuple. *)
Theorem compress_ignores_delegationId :
  forall (a : IAttestation) (d : value),
    let a' := {| claimHash := claimHash a; cTypeHash := cTypeHash a;
                 owner := owner a; revoked := revoked a;
                 delegationId := d |} in
    errorCheck a' = errorCheck a
    /\ accepts (compress a') = accepts (compress a)
    /\ (forall t, compress a' = Ok t ->
                  t = VArr [claimHash a; cTypeHash a; owner a; revoked a; d]).
Proof.
  intros a d a'.
  assert (E : errorCheck a' = errorCheck a).
  { unfold errorCheck. rewrite !delegationId_guard_false. reflexivity. }
  split; [exact E |]. split.
  - unfold compress. rewrite E. destruct (errorCheck a); reflexivity.
  - intros t. unfold compress. destruct (errorCheck a') as [[] | e]; simpl.
    + intros H. injection H as <-. reflexivity.
    + discriminate.
Qed.

(** [decompress] checks the shape only: it returns a record for every array
    of five elements, also for one that [compress] could not have produced,
    and on the record of such a tuple [compress] throws. *)
Theorem decompress_does_not_validate :
  forall t : value,
    array_of_length 5 t = true ->
    exists a, decompress t = Ok a
              /\ accepts (compress a) = Valid.attestation_tuple t.
Proof.
  intros t H.
  destruct t as [ | | ? | ? | ? | t | ? ]; try discriminate H.
  simpl in H.
  destruct t as [ | ch [ | ct [ | o [ | r [ | d [ | x t ]]]]]];
    try discriminate H.
  eexists. split; [reflexivity |].
  unfold index. simpl. apply compress_succeeds_iff_valid.
Qed.

End AttestationMore.

Section QuoteMore.
Import QuoteUtils.

Ltac bools :=
  repeat match goal with
    | H : _ && _ = true |- _ => apply andb_prop in H; destruct H
    | H : negb _ = true |- _ => apply negb_true_iff in H
    | H : _ || _ = false |- _ => apply orb_false_elim in H; destruct H
    end.

Lemma compressCost_accepts (c : ICostBreakdown) :
  compressCost c
  = if Valid.cost c then Ok (VArr [gross c; net c; tax c])
    else Throw (SDK (ERROR_COMPRESS_OBJECT "Cost Breakdown")).
Proof.
  unfold compressCost, Valid.cost, falsy.
  destruct (truthy (gross c)), (truthy (net c)), (truthy (tax c));
    reflexivity.
Qed.

(** The three quote compressors by cases: the outer check first, then the
    cost breakdown. *)
Lemma compressQuote_cases (q : IQuote) :
  compressQuote q
  = if quote_fields_missing q
    then Throw (SDK (ERROR_COMPRESS_OBJECT "Quote"))
    else match cost q with
         | Some c =>
             if Valid.cost c
             then Ok (VArr [attesterAddress q; cTypeHash q;
                            VArr [gross c; net c; tax c]; currency q;
                            termsAndConditions q; timeframe q])
             else Throw (SDK (ERROR_COMPRESS_OBJECT "Cost Breakdown"))
         | None => Throw TypeError
         end.
Proof.
  unfold compressQuote. destruct (quote_fields_missing q); [reflexivity |].
  destruct (cost q) as [c |]; simpl; [| reflexivity].
  rewrite compressCost_accepts. destruct (Valid.cost c); reflexivity.
Qed.

Lemma compressAttesterSignedQuote_cases (s : IQuoteAttesterSigned) :
  compressAttesterSignedQuote s
  = if quote_fields_missing (quote s) || falsy (attesterSignature s)
    then Throw (SDK (ERROR_COMPRESS_OBJECT "Attester Signed Quote"))
    else match cost (quote s) with
         | Some c =>
             if Valid.cost c
             then Ok (VArr [attesterAddress (quote s); cTypeHash (quote s);
                            VArr [gross c; net c; tax c];
                            currency (quote s);
                            termsAndConditions (quote s);
                            timeframe (quote s); attesterSignature s])
             else Throw (SDK (ERROR_COMPRESS_OBJECT "Cost Breakdown"))
         | None => Throw TypeError
         end.
Proof.
  unfold compressAttesterSignedQuote. simpl.
  destruct (quote_fields_missing (quote s) || falsy (attesterSignature s));
    [reflexivity |].
  destruct (cost (quote s)) as [c |]; simpl; [| reflexivity].
  rewrite compressCost_accepts. destruct (Valid.cost c); reflexivity.
Qed.

Lemma compressQuoteAgreement_cases (g : IQuoteAgreement) :
  compressQuoteAgreement g
  = let s := signedQuote g in
    if quote_fields_missing (quote s) || falsy (attesterSignature s)
    then Throw (SDK (ERROR_COMPRESS_OBJECT "Quote Agreement"))
    else match cost (quote s) with
         | Some c =>
             if Valid.cost c
             then Ok (VArr [attesterAddress (quote s); cTypeHash (quote s);
                            VArr [gross c; net c; tax c];
                            currency (quote s);
                            termsAndConditions (quote s);
                            timeframe (quote s); attesterSignature s;
                            claimerSignature g; rootHash g])
             else Throw (SDK (ERROR_COMPRESS_OBJECT "Cost Breakdown"))
         | None => Throw TypeError
         end.
Proof.
  unfold compressQuoteAgreement. simpl.
  destruct (quote_fields_missing (quote (signedQuote g))
            || falsy (attesterSignature (signedQuote g)));
    [reflexivity |].
  destruct (cost (quote (signedQuote g))) as [c |]; simpl; [| reflexivity].
  rewrite compressCost_accepts. destruct (Valid.cost c); reflexivity.
Qed.

Lemma fields_present_cost_present (q : IQuote) :
  quote_fields_missing q = false -> exists c, cost q = Some c.
Proof.
  unfold quote_fields_missing, absent. intros H. bools.
  destruct (cost q) as [c |]; [eauto | discriminate].
Qed.

(** The quote compressors throw [ERROR_COMPRESS_OBJECT] and nothing else:
    with the name of their own record type when one of its fields is
    missing, the attester's signature included for a signed quote and an
    agreement, and with the name of the cost breakdown when all of these are
    present and only a part of the cost is missing. *)
Theorem quote_compress_errors :
  (forall s : IQuoteAttesterSigned,
      quote_fields_missing (quote s) = true
      \/ falsy (attesterSignature s) = true ->
      compressAttesterSignedQuote s
      = Throw (SDK (ERROR_COMPRESS_OBJECT "Attester Signed Quote")))
  /\ (forall g : IQuoteAgreement,
         quote_fields_missing (quote (signedQuote g)) = true
         \/ falsy (attesterSignature (signedQuote g)) = true ->
         compressQuoteAgreement g
         = Throw (SDK (ERROR_COMPRESS_OBJECT "Quote Agreement")))
  /\ (forall (g : IQuoteAgreement) (c : ICostBreakdown),
         quote_fields_missing (quote (signedQuote g)) = false ->
         truthy (attesterSignature (signedQuote g)) = true ->
         cost (quote (signedQuote g)) = Some c ->
         Valid.cost c = false ->
         compressQuote (quote (signedQuote g))
         = Throw (SDK (ERROR_COMPRESS_OBJECT "Cost Breakdown"))
         /\ compressAttesterSignedQuote (signedQuote g)
            = Throw (SDK (ERROR_COMPRESS_OBJECT "Cost Breakdown"))
         /\ compressQuoteAgreement g
            = Throw (SDK (ERROR_COMPRESS_OBJECT "Cost Breakdown")))
  /\ (forall (g : IQuoteAgreement) (e : Exn),
         compressQuote (quote (signedQuote g)) = Throw e
         \/ compressAttesterSignedQuote (signedQuote g) = Throw e
         \/ compressQuoteAgreement g = Throw e ->
         exists type, e = SDK (ERROR_COMPRESS_OBJECT type)).
Proof.
  repeat apply conj.
  - intros s H. rewrite compressAttesterSignedQuote_cases.
    replace (quote_fields_missing (quote s) || falsy (attesterSignature s))
      with true; [reflexivity |].
    destruct H as [-> | ->]; [reflexivity | rewrite orb_true_r; reflexivity].
  - intros g H. rewrite compressQuoteAgreement_cases. simpl.
    replace (quote_fields_missing (quote (signedQuote g))
             || falsy (attesterSignature (signedQuote g)))
      with true; [reflexivity |].
    destruct H as [-> | ->]; [reflexivity | rewrite orb_true_r; reflexivity].
  - intros g c Hm Hs Hc Hv. apply truthy_not_falsy in Hs.
    rewrite compressQuote_cases, compressAttesterSignedQuote_cases,
      compressQuoteAgreement_cases. simpl.
    rewrite Hm, Hs, Hc, Hv. simpl. repeat split; reflexivity.
  - intros g e.
    rewrite compressQuote_cases, compressAttesterSignedQuote_cases,
      compressQuoteAgreement_cases. simpl.
    destruct (quote_fields_missing (quote (signedQuote g))) eqn:Hm; simpl.
    + intros [H | [H | H]]; injection H as <-; eauto.
    + destruct (fields_present_cost_present _ Hm) as [c ->].
      destruct (falsy (attesterSignature (signedQuote g)));
        destruct (Valid.cost c);
        intros [H | [H | H]]; try discriminate H; injection H as <-; eauto.
Qed.

(** The tuples are laid out by extension.  Where [compressQuote] returns
    and the attester's signature is present, [compressAttesterSignedQuote]
    returns the same tuple with the signature appended; and
    [compressQuoteAgreement] returns exactly when
    [compressAttesterSignedQuote] does, with [claimerSignature] and
    [rootHash] appended as they are, present or not. *)
Theorem quote_tuples_extend :
  (forall (s : IQuoteAttesterSigned) (items : list value),
      compressQuote (quote s) = Ok (VArr items) ->
      truthy (attesterSignature s) = true ->
      compressAttesterSignedQuote s
      = Ok (VArr (items ++ [attesterSignature s])%list))
  /\ (forall (g : IQuoteAgreement) (t : value),
         compressAttesterSignedQuote (signedQuote g) = Ok t ->
         exists items,
           t = VArr items
           /\ compressQuoteAgreement g
              = Ok (VArr (items ++ [claimerSignature g; rootHash g])%list))
  /\ (forall g : IQuoteAgreement,
         accepts (compressQuoteAgreement g)
         = accepts (compressAttesterSignedQuote (signedQuote g))).
Proof.
  repeat apply conj.
  - intros s items. rewrite compressQuote_cases,
      compressAttesterSignedQuote_cases.
    intros H T. apply truthy_not_falsy in T. rewrite T.
    destruct (quote_fields_missing (quote s)); [discriminate |]. simpl.
    destruct (cost (quote s)) as [c |]; [| discriminate].
    destruct (Valid.cost c); [| discriminate].
    injection H as <-. reflexivity.
  - intros g t. rewrite compressAttesterSignedQuote_cases,
      compressQuoteAgreement_cases. simpl.
    destruct (quote_fields_missing (quote (signedQuote g))
              || falsy (attesterSignature (signedQuote g)));
      [discriminate |].
    destruct (cost (quote (signedQuote g))) as [c |]; [| discriminate].
    destruct (Valid.cost c); [| discriminate].
    intros H. injection H as <-. eexists. split; reflexivity.
  - intros g. rewrite compressAttesterSignedQuote_cases,
      compressQuoteAgreement_cases. simpl.
    destruct (quote_fields_missing (quote (signedQuote g))
              || falsy (attesterSignature (signedQuote g)));
      [reflexivity |].
    destruct (cost (quote (signedQuote g))) as [c |]; [| reflexivity].
    destruct (Valid.cost c); reflexivity.
Qed.

End QuoteMore.

Section DecompressMore.
Import QuoteUtils.

Lemma accepts_decompressCost (v : value) :
  accepts (decompressCost v) = array_of_length 3 v.
Proof.
  destruct v as [ | | b | n | s | items | props ]; simpl; try reflexivity.
  destruct (length items =? 3)%nat; reflexivity.
Qed.

(** A decompressor that returns was given an array of its own arity. *)
Lemma decompressors_arity (v : value) :
  (accepts (AttestationUtils.decompress v) = true ->
   array_of_length 5 v = true)
  /\ (accepts (decompressQuote v) = true -> array_of_length 6 v = true)
  /\ (accepts (decompressAttesterSignedQuote v) = true ->
      array_of_length 7 v = true)
  /\ (accepts (decompressQuoteAgreement v) = true ->
      array_of_length 9 v = true).
Proof.
  unfold AttestationUtils.decompress, decompressQuote,
    decompressAttesterSignedQuote, decompressQuoteAgreement.
  destruct v as [ | | b | n | s | items | props ]; simpl;
    repeat split; try discriminate.
  - destruct (length items =? 5)%nat; [reflexivity | discriminate].
  - destruct (length items =? 6)%nat; [reflexivity | discriminate].
  - destruct (length items =? 7)%nat; [reflexivity | discriminate].
  - destruct (length items =? 9)%nat; [reflexivity | discriminate].
Qed.

Lemma array_of_length_unique (n m : nat) (v : value) :
  array_of_length n v = true -> array_of_length m v = true -> n = m.
Proof.
  destruct v; simpl; try discriminate.
  intros H1 H2. apply Nat.eqb_eq in H1. apply Nat.eqb_eq in H2. congruence.
Qed.

(** No value is taken by two decompressors: of the five, for attestations,
    cost breakdowns, quotes, signed quotes and agreements, at most one
    returns on a given input, so a tuple of one record type is never read
    as a record of another. *)
Theorem at_most_one_decompressor_accepts :
  forall v : value,
    (length
       (filter (fun b : bool => b)
          [ accepts (AttestationUtils.decompress v);
            accepts (decompressCost v);
            accepts (decompressQuote v);
            accepts (decompressAttesterSignedQuote v);
            accepts (decompressQuoteAgreement v) ]) <= 1)%nat.
Proof.
  intros v.
  destruct (decompressors_arity v) as (A & Q & S & G).
  rewrite accepts_decompressCost.
  destruct (accepts (AttestationUtils.decompress v)) eqn:Ea;
    destruct (array_of_length 3 v) eqn:Ec;
    destruct (accepts (decompressQuote v)) eqn:Eq;
    destruct (accepts (decompressAttesterSignedQuote v)) eqn:Es;
    destruct (accepts (decompressQuoteAgreement v)) eqn:Eg;
    simpl; try lia; exfalso;
    repeat match goal with
      | H : true = true -> _ |- _ => specialize (H eq_refl)
      end;
    repeat match goal with
      | H1 : array_of_length ?n v = true, H2 : array_of_length ?m v = true |- _ =>
          pose proof (array_of_length_unique _ _ _ H1 H2); discriminate
      end.
Qed.

(** What the decompression error names.  For an input of the wrong shape
    the attestation decompressor names [Attestation] and the cost
    decompressor [Cost Breakdown]; the three quote decompressors name no
    type at all; and when their input has the right arity but a cost slot
    of the wrong shape, the error is that of the cost breakdown. *)
Theorem decompress_error_names :
  (forall v, array_of_length 5 v = false ->
             AttestationUtils.decompress v
             = Throw (SDK (ERROR_DECOMPRESSION_ARRAY (Some "Attestation"))))
  /\ (forall v, array_of_length 3 v = false ->
                decompressCost v
                = Throw (SDK (ERROR_DECOMPRESSION_ARRAY
                                (Some "Cost Breakdown"))))
  /\ (forall v, array_of_length 6 v = false ->
                decompressQuote v
                = Throw (SDK (ERROR_DECOMPRESSION_ARRAY None)))
  /\ (forall v, array_of_length 7 v = false ->
                decompressAttesterSignedQuote v
                = Throw (SDK (ERROR_DECOMPRESSION_ARRAY None)))
  /\ (forall v, array_of_length 9 v = false ->
                decompressQuoteAgreement v
                = Throw (SDK (ERROR_DECOMPRESSION_ARRAY None)))
  /\ (forall v, array_of_length 3 (cost_slot v) = false ->
                (array_of_length 6 v = true ->
                 decompressQuote v
                 = Throw (SDK (ERROR_DECOMPRESSION_ARRAY
                                 (Some "Cost Breakdown"))))
                /\ (array_of_length 7 v = true ->
                    decompressAttesterSignedQuote v
                    = Throw (SDK (ERROR_DECOMPRESSION_ARRAY
                                    (Some "Cost Breakdown"))))
                /\ (array_of_length 9 v = true ->
                    decompressQuoteAgreement v
                    = Throw (SDK (ERROR_DECOMPRESSION_ARRAY
                                    (Some "Cost Breakdown"))))).
Proof.
  unfold AttestationUtils.decompress, decompressQuote,
    decompressAttesterSignedQuote, decompressQuoteAgreement.
  repeat apply conj; intros v;
    destruct v as [ | | b | n | s | items | props ]; simpl;
    try reflexivity; try discriminate;
    try (intros ->; reflexivity);
    try (intros _; repeat split; discriminate).
  intros H. pose proof (decompressCost_shape (index items 2)) as C.
  rewrite H in C. rewrite C.
  repeat split; intros ->; reflexivity.
Qed.

Lemma accepts_compressQuote (q : IQuote) :
  accepts (compressQuote q) = Valid.quote q.
Proof.
  unfold compressQuote, Valid.quote.
  destruct (quote_fields_missing q); [reflexivity |]. simpl.
  destruct (cost q) as [c |]; simpl; [| reflexivity].
  unfold compressCost, Valid.cost, falsy.
  destruct (truthy (gross c)), (truthy (net c)), (truthy (tax c));
    reflexivity.
Qed.

(** [decompressQuote] checks shapes only: it returns a quote for every
    array of six elements whose cost slot is an array of three, whatever
    the elements are, and [compressQuote] accepts that quote exactly when
    the tuple is well formed. *)
Theorem decompressQuote_does_not_validate :
  forall t : value,
    array_of_length 6 t = true ->
    array_of_length 3 (cost_slot t) = true ->
    exists q, decompressQuote t = Ok q
              /\ accepts (compressQuote q) = Valid.quote_tuple t.
Proof.
  intros t H C.
  destruct t as [ | | ? | ? | ? | t | ? ]; try discriminate H.
  simpl in H.
  destruct t as [ | a [ | h [ | c [ | cur [ | tc [ | tf [ | x t ]]]]]]];
    try discriminate H.
  simpl in C. unfold index in C. simpl in C.
  destruct c as [ | | ? | ? | ? | c | ? ]; try discriminate C.
  simpl in C.
  destruct c as [ | g [ | n [ | x [ | y c ]]]]; try discriminate C.
  eexists. split; [reflexivity |].
  rewrite accepts_compressQuote.
  unfold Valid.quote, Valid.quote_tuple, Valid.cost_tuple, Valid.cost,
    quote_fields_missing, absent, falsy, index. simpl.
  destruct (truthy a), (truthy h), (truthy cur), (truthy tc), (truthy tf),
    (truthy g), (truthy n), (truthy x); reflexivity.
Qed.

End DecompressMore.

(* ===================================================================== *)
(** * Further properties of claim construction *)
(* ===================================================================== *)

Section ClaimMore.
Context {V : Claim.Validators}.
Import Claim.

Lemma accepts_constructor (i : IClaim) :
  accepts (constructor i) = isIClaim i.
Proof.
  unfold constructor, isIClaim. simpl.
  destruct (errorCheck i) as [[] | e]; reflexivity.
Qed.

(** When each way of building a claim returns.  [new Claim(x)] returns
    exactly when [Claim.isIClaim(x)] holds; [fromClaim] and
    [fromNestedCTypeClaim] return exactly when their validator accepts the
    contents and the input is an [IClaim]; [fromCTypeAndClaimContents]
    returns exactly when the CType has no schema or the schema accepts the
    contents, and the input is an [IClaim].  A claim that the last one
    returns carries the hash of the CType and the contents and owner
    given. *)
Theorem claim_construction_succeeds_iff :
  (forall i, accepts (constructor i) = isIClaim i)
  /\ (forall i s,
         accepts (fromClaim i s) = verifyClaim (contents i) s && isIClaim i)
  /\ (forall t n c o,
         accepts (fromNestedCTypeClaim t n c o)
         = validateNestedSchemas (schema t) n c
           && isIClaim {| cTypeHash := hash t; contents := c; owner := o |})
  /\ (forall t c o,
         accepts (fromCTypeAndClaimContents t c o)
         = (negb (truthy (schema t)) || verifyClaim c (schema t))
           && isIClaim {| cTypeHash := hash t; contents := c; owner := o |})
  /\ (forall t c o x,
         fromCTypeAndClaimContents t c o = Ok x ->
         x = {| this_cTypeHash := hash t; this_contents := c;
                this_owner := o |}).
Proof.
  repeat apply conj.
  - exact accepts_constructor.
  - intros i s. unfold fromClaim.
    destruct (verifyClaim (contents i) s); simpl;
      [apply accepts_constructor | reflexivity].
  - intros t n c o. unfold fromNestedCTypeClaim.
    destruct (validateNestedSchemas (schema t) n c); simpl;
      [apply accepts_constructor | reflexivity].
  - intros t c o. unfold fromCTypeAndClaimContents.
    destruct (truthy (schema t)); simpl.
    + destruct (verifyClaim c (schema t)); simpl;
        [apply accepts_constructor | reflexivity].
    + apply accepts_constructor.
  - intros t c o x. unfold fromCTypeAndClaimContents.
    destruct (truthy (schema t)); simpl.
    + destruct (verifyClaim c (schema t)); simpl; [| discriminate].
      intros H. apply constructor_accepts in H as [_ ->]. reflexivity.
    + intros H. apply constructor_accepts in H as [_ ->]. reflexivity.
Qed.

End ClaimMore.

(* ===================================================================== *)
(** * Further properties of the message envelope *)
(* ===================================================================== *)

Lemma get_throws (v : value) (k : string) (e : Exn) :
  get v k = Throw e -> e = TypeError.
Proof.
  destruct v; simpl; intros H; solve [discriminate H | injection H as <-; reflexivity].
Qed.

Lemma owner_check_throws (o : value) (sender context : string) (e : Exn) :
  Message.owner_check o sender context = Throw e ->
  e = SDK (ERROR_IDENTITY_MISMATCH context "Sender").
Proof.
  rewrite owner_check_result.
  destruct (strict_equals o (VStr sender)); intros H;
    [discriminate H | injection H as <-; reflexivity].
Qed.

Lemma owner_check_passes (o : value) (sender context : string) :
  Message.owner_check o sender context = Ok tt <-> o = VStr sender.
Proof.
  rewrite owner_check_result, <- strict_equals_string.
  destruct (strict_equals o (VStr sender)); split;
    solve [reflexivity | discriminate].
Qed.

Lemma forEach_all_ok (f : value -> Result unit) (items : list value) :
  forEach (VArr items) f = Ok tt <-> Forall (fun x => f x = Ok tt) items.
Proof.
  induction items as [| x rest IH]; simpl.
  - split; [constructor | reflexivity].
  - destruct (f x) as [[] | e] eqn:E; simpl.
    + simpl in IH. rewrite IH. split.
      * intros H. constructor; assumption.
      * intros H. inversion H. assumption.
    + split; [discriminate |]. intros H. inversion H. congruence.
Qed.

Lemma forEach_throws (f : value -> Result unit) (items : list value)
    (e : Exn) :
  forEach (VArr items) f = Throw e -> exists x, In x items /\ f x = Throw e.
Proof.
  induction items as [| x rest IH]; simpl; [discriminate |].
  destruct (f x) as [[] | e'] eqn:E; simpl.
  - intros H. destruct (IH H) as (y & Hy & Hf). eauto.
  - intros H. injection H as <-. eauto.
Qed.

Lemma forEach_not_array (f : value -> Result unit) (v : value) :
  isArray v = false -> forEach v f = Throw TypeError.
Proof. destruct v; simpl; solve [reflexivity | discriminate]. Qed.

(** The callback of the classic case, through [attested_claim_owner]. *)
Lemma classic_callback_result (sender : string) (claim : value) :
  (request <- get claim "request" ;;
   claim' <- get request "claim" ;;
   owner <- get claim' "owner" ;;
   Message.owner_check owner sender "Claims")
  = (owner <- attested_claim_owner claim ;;
     Message.owner_check owner sender "Claims").
Proof.
  unfold attested_claim_owner. simpl.
  destruct (get claim "request") as [request |]; [| reflexivity].
  destruct (get request "claim") as [c |]; reflexivity.
Qed.

Section OwnerMore.
Import Message.

(** The case of SUBMIT_CLAIMS_FOR_CTYPES_CLASSIC.  For a body whose content
    is a list of attested claims, each with a [request.claim.owner],
    [ensureOwnerIsSender] returns exactly when every one of these owners is
    the sender, the empty list included, and otherwise throws the identity
    mismatch for [Claims]. *)
Theorem classic_claims_owner_check :
  forall (body : value) (items : list value) (senderAddress : string),
    get body "type" = Ok (VStr (tag SUBMIT_CLAIMS_FOR_CTYPES_CLASSIC)) ->
    get body "content" = Ok (VArr items) ->
    Forall (fun claim => accepts (attested_claim_owner claim) = true) items ->
    (ensureOwnerIsSender body senderAddress = Ok tt
     <-> Forall (fun claim =>
                   attested_claim_owner claim = Ok (VStr senderAddress))
           items)
    /\ (ensureOwnerIsSender body senderAddress = Ok tt
        \/ ensureOwnerIsSender body senderAddress
           = Throw (SDK (ERROR_IDENTITY_MISMATCH "Claims" "Sender"))).
Proof.
  intros body items sender Ht Hc Hall.
  unfold ensureOwnerIsSender. rewrite Ht. simpl. rewrite Hc. simpl.
  change ((forEach (VArr items)
            (fun claim =>
               request <- get claim "request" ;;
               claim' <- get request "claim" ;;
               owner <- get claim' "owner" ;;
               owner_check owner sender "Claims") = Ok tt
          <-> Forall (fun claim =>
                        attested_claim_owner claim = Ok (VStr sender)) items)
         /\ (forEach (VArr items)
               (fun claim =>
                  request <- get claim "request" ;;
                  claim' <- get request "claim" ;;
                  owner <- get claim' "owner" ;;
                  owner_check owner sender "Claims") = Ok tt
             \/ forEach (VArr items)
                  (fun claim =>
                     request <- get claim "request" ;;
                     claim' <- get request "claim" ;;
                     owner <- get claim' "owner" ;;
                     owner_check owner sender "Claims")
                = Throw (SDK (ERROR_IDENTITY_MISMATCH "Claims" "Sender")))).
  split.
  - rewrite forEach_all_ok. split; intros H.
    + rewrite Forall_forall in *. intros x Hx.
      specialize (H x Hx). specialize (Hall x Hx).
      rewrite classic_callback_result in H.
      destruct (attested_claim_owner x) as [o |]; [| discriminate Hall].
      simpl in H. apply owner_check_passes in H. subst o. reflexivity.
    + rewrite Forall_forall in *. intros x Hx.
      rewrite classic_callback_result, (H x Hx). simpl.
      apply owner_check_passes. reflexivity.
  - match goal with
    | |- ?r = Ok tt \/ _ => destruct r as [[] | e] eqn:E
    end; [left; reflexivity | right].
    destruct (forEach_throws _ _ E) as (x & Hx & Hf).
    rewrite Forall_forall in Hall. specialize (Hall x Hx).
    rewrite classic_callback_result in Hf.
    destruct (attested_claim_owner x) as [o |]; [| discriminate Hall].
    simpl in Hf. apply owner_check_throws in Hf. subst e. reflexivity.
Qed.

End OwnerMore.

Lemma bind_throws {A B} (m : Result A) (k : A -> Result B) (e : Exn) :
  (x <- m ;; k x) = Throw e ->
  m = Throw e \/ exists a, m = Ok a /\ k a = Throw e.
Proof.
  destruct m as [a | e']; simpl; intros H; [eauto |].
  injection H as ->. left. reflexivity.
Qed.

(** A throw of a chain of property reads that ends in an owner check. *)
Ltac chain_throws H :=
  repeat (apply bind_throws in H;
          destruct H as [H | (? & _ & H)];
          [apply get_throws in H; left; exact H |]);
  apply owner_check_throws in H; right; eexists; exact H.

Section OwnerErrors.
Import Message.

(** The case of REQUEST_ATTESTATION_FOR_CLAIM.  For a body whose content
    has a [requestForAttestation.claim.owner], [ensureOwnerIsSender]
    returns exactly when that owner is the sender, and otherwise throws the
    identity mismatch for [Claim]. *)
Theorem request_attestation_owner_check :
  forall (body content owner : value) (senderAddress : string),
    get body "type" = Ok (VStr (tag REQUEST_ATTESTATION_FOR_CLAIM)) ->
    get body "content" = Ok content ->
    requested_claim_owner content = Ok owner ->
    (ensureOwnerIsSender body senderAddress = Ok tt
     <-> owner = VStr senderAddress)
    /\ (owner <> VStr senderAddress ->
        ensureOwnerIsSender body senderAddress
        = Throw (SDK (ERROR_IDENTITY_MISMATCH "Claim" "Sender"))).
Proof.
  intros body content owner sender Ht Hc Ho.
  assert (E : ensureOwnerIsSender body sender
              = owner_check owner sender "Claim").
  { unfold ensureOwnerIsSender. rewrite Ht. simpl. rewrite Hc. simpl.
    unfold requested_claim_owner in Ho. simpl in Ho.
    destruct (get content "requestForAttestation") as [r |];
      [| discriminate Ho].
    simpl. destruct (get r "claim") as [c |]; [| discriminate Ho].
    simpl in *. rewrite Ho. reflexivity. }
  rewrite E. split; [apply owner_check_passes |].
  intros N. rewrite owner_check_result.
  destruct (strict_equals owner (VStr sender)) eqn:S; [| reflexivity].
  apply strict_equals_string in S. contradiction.
Qed.

(** [ensureOwnerIsSender] throws the identity mismatch or a [TypeError] and
    nothing else.  The [TypeError] is what a body of one of the three bound
    kinds gets when its [content] is missing, or, for the classic
    submission, when its [content] is not an array. *)
Theorem ensureOwnerIsSender_throws_only :
  (forall (body : value) (senderAddress : string) (e : Exn),
      ensureOwnerIsSender body senderAddress = Throw e ->
      e = TypeError
      \/ exists context, e = SDK (ERROR_IDENTITY_MISMATCH context "Sender"))
  /\ (forall (body : value) (k : MessageBodyType) (senderAddress : string),
         In k owner_bound_kinds ->
         get body "type" = Ok (VStr (tag k)) ->
         get body "content" = Ok VUndefined ->
         ensureOwnerIsSender body senderAddress = Throw TypeError)
  /\ (forall (body content : value) (senderAddress : string),
         get body "type" = Ok (VStr (tag SUBMIT_CLAIMS_FOR_CTYPES_CLASSIC)) ->
         get body "content" = Ok content ->
         isArray content = false ->
         ensureOwnerIsSender body senderAddress = Throw TypeError).
Proof.
  repeat apply conj.
  - intros body sender e. unfold ensureOwnerIsSender.
    intros H. apply bind_throws in H.
    destruct H as [H | (type & _ & H)];
      [apply get_throws in H; left; exact H |].
    destruct (is_case type REQUEST_ATTESTATION_FOR_CLAIM);
      [chain_throws H |].
    destruct (is_case type SUBMIT_ATTESTATION_FOR_CLAIM);
      [chain_throws H |].
    destruct (is_case type SUBMIT_CLAIMS_FOR_CTYPES_CLASSIC);
      [| discriminate H].
    apply bind_throws in H.
    destruct H as [H | (content & _ & H)];
      [apply get_throws in H; left; exact H |].
    destruct content as [ | | ? | ? | ? | items | ? ];
      try (simpl in H; injection H as <-; left; reflexivity).
    apply forEach_throws in H. destruct H as (x & _ & H).
    chain_throws H.
  - intros body k sender Hk Ht Hc. unfold ensureOwnerIsSender.
    rewrite Ht. simpl in Hk.
    destruct Hk as [<- | [<- | [<- | []]]]; simpl; rewrite Hc; reflexivity.
  - intros body content sender Ht Hc Ha. unfold ensureOwnerIsSender.
    rewrite Ht. simpl. rewrite Hc. simpl.
    destruct content; simpl; solve [reflexivity | discriminate Ha].
Qed.

End OwnerErrors.

Lemma string_append_assoc (a b c : string) :
  ((a ++ b) ++ c)%string = (a ++ (b ++ c))%string.
Proof. induction a as [| x a IH]; simpl; [reflexivity | rewrite IH; reflexivity]. Qed.

Section MessageMore.
Context {DU : DataUtils} {C : Message.Collaborators}.
Import Message.

Ltac run_decrypt e r :=
  unfold decrypt, ensureHashAndSignature, validateSignature, parse_or_throw,
    call, traced_throw, traced_try_catch; simpl;
  destruct (hashStr (hashInput e) =? hash e) eqn:Hhash; simpl;
  [ destruct (validateSignature_ok (hash e) (signature e) (senderAddress e))
      eqn:Hsig; simpl;
    [ destruct (decryptAsymmetricAsStr r (message e, nonce e)
                  (senderBoxPublicKey e)) as [text |] eqn:Hdec; simpl;
      [ destruct (text =? EmptyString) eqn:Htext; simpl;
        [ | destruct (JSON_parse text) as [parsed |] eqn:Hparse; simpl;
            [ destruct (ensureOwnerIsSender parsed (senderAddress e))
                as [[] | x] eqn:Howner; simpl | ] ]
      | ]
    | ]
  | ].

Ltac string_eqs :=
  repeat match goal with
    | H : (_ =? _) = true |- _ => apply String.eqb_eq in H
    | H : (_ =? _) = false |- _ => apply String.eqb_neq in H
    end.

(** [ensureHashAndSignature] on its own.  It returns exactly when the hash
    of message, nonce and creation time is the carried hash and the
    signature verifies against the address it is given, which need not be
    the [senderAddress] of the envelope; on a hash mismatch it throws
    [ERROR_NONCE_HASH_INVALID] with the carried hash and nonce and does not
    consult the signature validator; on a bad signature it throws what the
    validator throws. *)
Theorem ensureHashAndSignature_accepts_iff :
  forall (encrypted : IEncryptedMessage) (address : string),
    (outcome (ensureHashAndSignature encrypted address) = Ok tt
     <-> hash_matches encrypted
         /\ validateSignature_ok (hash encrypted) (signature encrypted)
              address = true)
    /\ (~ hash_matches encrypted ->
        ensureHashAndSignature encrypted address
        = ([Call_hashStr (hashInput encrypted)],
           Throw (SDK (ERROR_NONCE_HASH_INVALID (hash encrypted)
                         (nonce encrypted) "Message"))))
    /\ (hash_matches encrypted ->
        validateSignature_ok (hash encrypted) (signature encrypted) address
        = false ->
        ensureHashAndSignature encrypted address
        = ([Call_hashStr (hashInput encrypted);
            Call_validateSignature (hash encrypted) (signature encrypted)
              address],
           Throw (DataUtilsError "validateSignature" address))).
Proof.
  intros e a.
  unfold outcome, hash_matches, ensureHashAndSignature, validateSignature,
    call, traced_throw. simpl.
  destruct (hashStr (hashInput e) =? hash e) eqn:Hh; simpl; string_eqs.
  - destruct (validateSignature_ok (hash e) (signature e) a) eqn:Hs; simpl;
      (split; [| split]); intros; try reflexivity; try contradiction;
      try discriminate; intuition (try congruence; discriminate).
  - (split; [| split]); intros; try reflexivity; try contradiction;
      intuition (try congruence; discriminate).
Qed.

(** The hash input is the plain concatenation of message, nonce and
    creation time, so the hash does not fix where the message ends and the
    nonce begins: two envelopes with the same concatenation of message and
    nonce, the same creation time, hash and signature, are accepted or
    rejected together by [ensureHashAndSignature], over the same calls. *)
Theorem hash_ignores_message_nonce_boundary :
  forall (e1 e2 : IEncryptedMessage) (address : string),
    (message e1 ++ nonce e1)%string = (message e2 ++ nonce e2)%string ->
    createdAt e1 = createdAt e2 ->
    hash e1 = hash e2 ->
    signature e1 = signature e2 ->
    hashInput e1 = hashInput e2
    /\ calls (ensureHashAndSignature e1 address)
       = calls (ensureHashAndSignature e2 address)
    /\ accepts (outcome (ensureHashAndSignature e1 address))
       = accepts (outcome (ensureHashAndSignature e2 address)).
Proof.
  intros e1 e2 a Hmn Hc Hh Hs.
  assert (HI : hashInput e1 = hashInput e2).
  { unfold hashInput. rewrite <- !string_append_assoc, Hmn, Hc.
    reflexivity. }
  split; [exact HI |].
  unfold calls, outcome, ensureHashAndSignature, validateSignature, call,
    traced_throw. simpl.
  rewrite <- HI, <- Hh, <- Hs.
  destruct (hashStr (hashInput e1) =? hash e1); simpl.
  - destruct (validateSignature_ok (hash e1) (signature e1) a); simpl;
      split; reflexivity.
  - split; reflexivity.
Qed.

(** The two errors of [decrypt] past the signature check, for a box call
    that returns.  [ERROR_DECODING_MESSAGE] is thrown when the box returns
    [false] and also when it returns the empty text, after three calls and
    before any parsing.  [ERROR_PARSING_MESSAGE] is thrown when the text
    does not parse, after four calls, and when the owner check throws on
    the parsed body, whatever it throws, after all five. *)
Theorem decrypt_decoding_and_parsing_errors :
  forall (encrypted : IEncryptedMessage) (receiver : Identity),
    (hash_matches encrypted -> signature_valid encrypted ->
     not_decoded
       (decryptAsymmetricAsStr receiver
          (message encrypted, nonce encrypted)
          (senderBoxPublicKey encrypted)) = true ->
     outcome (decrypt encrypted receiver)
     = Throw (SDK ERROR_DECODING_MESSAGE)
     /\ stages (decrypt encrypted receiver)
        = [HashVerification; SignatureVerification; AsymmetricDecryption])
    /\ (forall text,
           hash_matches encrypted -> signature_valid encrypted ->
           opens_to encrypted receiver text ->
           JSON_parse text = None ->
           outcome (decrypt encrypted receiver)
           = Throw (SDK ERROR_PARSING_MESSAGE)
           /\ stages (decrypt encrypted receiver)
              = [HashVerification; SignatureVerification;
                 AsymmetricDecryption; PayloadParsing])
    /\ (forall text parsed e,
           hash_matches encrypted -> signature_valid encrypted ->
           opens_to encrypted receiver text ->
           JSON_parse text = Some parsed ->
           ensureOwnerIsSender parsed (senderAddress encrypted) = Throw e ->
           outcome (decrypt encrypted receiver)
           = Throw (SDK ERROR_PARSING_MESSAGE)
           /\ stages (decrypt encrypted receiver) = pipeline).
Proof.
  intros e r.
  unfold outcome, stages, calls, hash_matches, signature_valid, opens_to,
    not_decoded, pipeline.
  run_decrypt e r; string_eqs.
  all: repeat apply conj.
  all: try solve [ intros; congruence ].
  all: try solve [ intros; split; reflexivity ].
  all: try solve [ intros t _ _ [Hd Hne]; intros; congruence ].
  all: try solve [ intros t p y _ _ [Hd Hne]; intros; congruence ].
  all: try solve [ intros _ _ H; apply String.eqb_eq in H; congruence ].
  all: try solve [ intros _ _ H; discriminate H ].
Qed.

End MessageMore.

Section ConstructorMore.
Context {DU : DataUtils} {C : Message.Collaborators}.
Import Message.

Lemma decrypt_masks_owner_error
    (e : IEncryptedMessage) (r : Identity) (txt : string) (b : value)
    (x : Exn) :
  hash_matches e -> signature_valid e -> opens_to e r txt ->
  JSON_parse txt = Some b ->
  ensureOwnerIsSender b (senderAddress e) = Throw x ->
  outcome (decrypt e r) = Throw (SDK ERROR_PARSING_MESSAGE).
Proof.
  unfold hash_matches, signature_valid, opens_to, outcome.
  intros Hh Hs [Hd Hne] Hp Ho.
  unfold decrypt, ensureHashAndSignature, validateSignature, parse_or_throw,
    call, traced_throw, traced_try_catch. simpl.
  rewrite Hh, String.eqb_refl, Hs. simpl. rewrite Hd. simpl.
  destruct (txt =? EmptyString) eqn:E;
    [apply String.eqb_eq in E; contradiction |].
  simpl. rewrite Hp. simpl. rewrite Ho. reflexivity.
Qed.

(** What the constructor does and does not check.  A body that is not an
    array is stored as it is and always yields a message: nothing in it is
    inspected, the owner least of all.  A body that is an array yields a
    message unless [decompressMessage] throws, and then the constructor
    throws the same.  The envelope of every message built carries the
    sender's address and box key, the receiver's address, the clock reading,
    no message id and no reception time, the box of the JSON text of the
    argument, a hash that passes the hash check and the sender's signature
    of that hash. *)
Theorem constructor_behaviour :
  forall (body : value) (sender : Identity) (receiver : IPublicIdentity)
         (now : Z),
    (isArray body = false ->
     exists m, constructor body sender receiver now = Ok m
               /\ Message.body m = body)
    /\ (isArray body = true ->
        forall e, constructor body sender receiver now = Throw e
                  <-> decompressMessage body = Throw e)
    /\ (forall m,
           constructor body sender receiver now = Ok m ->
           hash_matches (encrypt m)
           /\ signature (encrypt m) = signStr sender (hash (encrypt m))
           /\ (message (encrypt m), nonce (encrypt m))
              = encryptAsymmetricAsStr sender (JSON_stringify body)
                  (boxPublicKeyAsHex receiver)
           /\ senderAddress (encrypt m) = identity_address sender
           /\ senderBoxPublicKey (encrypt m) = getBoxPublicKey sender
           /\ receiverAddress (encrypt m) = address receiver
           /\ createdAt (encrypt m) = now
           /\ messageId (encrypt m) = None
           /\ receivedAt (encrypt m) = None).
Proof.
  intros b sender receiver now. unfold constructor.
  destruct (isArray b) eqn:A; repeat apply conj.
  - discriminate.
  - intros _ e. destruct (decompressMessage b) as [s | x]; simpl;
      split; intros H;
      solve [discriminate H | injection H as ->; reflexivity].
  - intros m. destruct (decompressMessage b) as [s | x]; simpl;
      [| discriminate].
    intros H. injection H as <-. unfold hash_matches, hashInput. simpl.
    destruct (encryptAsymmetricAsStr sender (JSON_stringify b)
                (boxPublicKeyAsHex receiver)).
    repeat split; reflexivity.
  - intros _. simpl. eexists. split; reflexivity.
  - discriminate.
  - intros m. simpl. intros H. injection H as <-.
    unfold hash_matches, hashInput. simpl.
    destruct (encryptAsymmetricAsStr sender (JSON_stringify b)
                (boxPublicKeyAsHex receiver)).
    repeat split; reflexivity.
Qed.

(** Construction, then [encrypt], then [decrypt].  For a structured body
    the constructor returns a message; when the signature it carries
    verifies, the receiver opens the box to the JSON text of the body and
    the text parses, [decrypt] returns the parsed body with the envelope if
    the owner check passes on it for the sender's address, and throws
    [ERROR_PARSING_MESSAGE] if that check throws: the binding of the owner
    is examined on receipt, not on construction. *)
Theorem structured_message_round_trip :
  forall (body : value) (sender receiverIdentity : Identity)
         (receiver : IPublicIdentity) (now : Z),
    isArray body = false ->
    exists m : IMessage,
      constructor body sender receiver now = Ok m
      /\ forall received : value,
           signature_valid (encrypt m) ->
           opens_to (encrypt m) receiverIdentity (JSON_stringify body) ->
           JSON_parse (JSON_stringify body) = Some received ->
           (ensureOwnerIsSender received (identity_address sender) = Ok tt ->
            outcome (decrypt (encrypt m) receiverIdentity)
            = Ok {| Message.body := received; wire := encrypt m |})
           /\ (forall e,
                  ensureOwnerIsSender received (identity_address sender)
                  = Throw e ->
                  outcome (decrypt (encrypt m) receiverIdentity)
                  = Throw (SDK ERROR_PARSING_MESSAGE)).
Proof.
  intros b sender rid receiver now A.
  unfold constructor. rewrite A. simpl.
  eexists. split; [reflexivity |].
  intros received Hs Ho Hp. split.
  - intros Hown. apply decrypt_returns with (txt := JSON_stringify b);
      try assumption; reflexivity.
  - intros e Hown.
    apply decrypt_masks_owner_error
      with (txt := JSON_stringify b) (b := received) (x := e);
      try assumption; reflexivity.
Qed.

End ConstructorMore.

(** ** Concrete runs of the further properties *)

Section RunsMore.
Import Toy Sample Message.

(** An attestation with no [revoked] at all, and one that is revoked. *)
Lemma compress_requires_boolean_revoked_witness :
  AttestationUtils.compress
    {| AttestationUtils.claimHash := claimHash;
       AttestationUtils.cTypeHash := cTypeHash;
       AttestationUtils.owner := aliceAddress;
       AttestationUtils.revoked := VUndefined;
       AttestationUtils.delegationId := VNull |}
  = Throw (SDK ERROR_REVOCATION_BIT_MISSING)
  /\ AttestationUtils.compress
       {| AttestationUtils.claimHash := claimHash;
          AttestationUtils.cTypeHash := cTypeHash;
          AttestationUtils.owner := aliceAddress;
          AttestationUtils.revoked := VBool true;
          AttestationUtils.delegationId := VNull |}
     = Ok (VArr [claimHash; cTypeHash; aliceAddress; VBool true; VNull]).
Proof.
  assert (H1 : truthy cTypeHash && validateHash_ok cTypeHash "CType" = true)
    by (vm_compute; reflexivity).
  assert (H2 : truthy claimHash && validateHash_ok claimHash "Claim" = true)
    by (vm_compute; reflexivity).
  assert (H3 : truthy aliceAddress && validateAddress_ok aliceAddress "owner"
               = true)
    by (vm_compute; reflexivity).
  split.
  - apply (proj2 (@compress_requires_boolean_revoked dataUtils
                    claimHash cTypeHash aliceAddress VUndefined VNull
                    H1 H2 H3)).
    intros b. discriminate.
  - apply (proj1 (@compress_requires_boolean_revoked dataUtils
                    claimHash cTypeHash aliceAddress (VBool true) VNull
                    H1 H2 H3)).
    exists true. reflexivity.
Defined.

(** Five values that are no attestation. *)
Lemma decompress_does_not_validate_witness :
  array_of_length 5
    (VArr [VUndefined; VStr EmptyString; VNum 0; VNull; VObj []]) = true
  /\ exists a,
       AttestationUtils.decompress
         (VArr [VUndefined; VStr EmptyString; VNum 0; VNull; VObj []]) = Ok a
       /\ accepts (AttestationUtils.compress a) = false.
Proof.
  split; [reflexivity |].
  exact (@decompress_does_not_validate dataUtils
           (VArr [VUndefined; VStr EmptyString; VNum 0; VNull; VObj []])
           eq_refl).
Defined.

(** Six values that are no quote, around a cost of three zeros. *)
Lemma decompressQuote_does_not_validate_witness :
  exists q,
    QuoteUtils.decompressQuote
      (VArr [VNull; VNull; VArr [VNum 0; VNum 0; VNum 0]; VNull; VNull;
             VNull]) = Ok q
    /\ accepts (QuoteUtils.compressQuote q) = false.
Proof.
  exact (decompressQuote_does_not_validate
           (VArr [VNull; VNull; VArr [VNum 0; VNum 0; VNum 0]; VNull; VNull;
                  VNull])
           eq_refl eq_refl).
Defined.

(** The sample agreement, and the same with a tax of zero. *)
Lemma quote_tuples_extend_witness :
  exists items,
    QuoteUtils.compressAttesterSignedQuote
      (QuoteUtils.signedQuote quoteAgreement) = Ok (VArr items)
    /\ QuoteUtils.compressQuoteAgreement quoteAgreement
       = Ok (VArr (items ++ [VStr "0x5162"; VStr "0x7007"])%list).
Proof.
  destruct (proj1 (proj2 quote_tuples_extend) quoteAgreement _ eq_refl)
    as (items & E & H).
  exists items. split; [| exact H].
  rewrite <- E. reflexivity.
Defined.

(** Alice submits claims: all her own, one of Bob's among them, none. *)
Lemma classic_claims_owner_check_witness :
  ensureOwnerIsSender (submitClaimsClassic ["5Alice"; "5Alice"]) "5Alice"
  = Ok tt
  /\ ensureOwnerIsSender (submitClaimsClassic ["5Alice"; "5Bob"]) "5Alice"
     <> Ok tt
  /\ ensureOwnerIsSender (submitClaimsClassic []) "5Alice" = Ok tt.
Proof.
  split; [| split].
  - refine (proj2 (proj1 (@classic_claims_owner_check
                            (submitClaimsClassic ["5Alice"; "5Alice"])
                            (map attestedClaim ["5Alice"; "5Alice"])
                            "5Alice" _ _ _)) _).
    + reflexivity.
    + reflexivity.
    + repeat constructor.
    + repeat constructor.
  - intros H.
    assert (F : Forall (fun claim =>
                          attested_claim_owner claim = Ok (VStr "5Alice"))
                  (map attestedClaim ["5Alice"; "5Bob"])).
    { refine (proj1 (proj1 (@classic_claims_owner_check
                              (submitClaimsClassic ["5Alice"; "5Bob"])
                              (map attestedClaim ["5Alice"; "5Bob"])
                              "5Alice" _ _ _)) H).
      - reflexivity.
      - reflexivity.
      - repeat constructor. }
    inversion F as [| ? ? _ T]. inversion T as [| ? ? B _].
    discriminate B.
  - refine (proj2 (proj1 (@classic_claims_owner_check
                            (submitClaimsClassic []) [] "5Alice" _ _ _)) _).
    + reflexivity.
    + reflexivity.
    + constructor.
    + constructor.
Defined.

(** Alice asks for the attestation of a claim that Bob owns. *)
Lemma request_attestation_owner_check_witness :
  ensureOwnerIsSender (requestAttestation "5Bob") "5Alice"
  = Throw (SDK (ERROR_IDENTITY_MISMATCH "Claim" "Sender"))
  /\ ensureOwnerIsSender (requestAttestation "5Alice") "5Alice" = Ok tt.
Proof.
  split.
  - apply (proj2 (@request_attestation_owner_check
                    (requestAttestation "5Bob")
                    (VObj [("requestForAttestation",
                             VObj [("claim",
                                     VObj [("owner", VStr "5Bob")])])])
                    (VStr "5Bob") "5Alice" eq_refl eq_refl eq_refl)).
    discriminate.
  - apply (proj1 (@request_attestation_owner_check
                    (requestAttestation "5Alice")
                    (VObj [("requestForAttestation",
                             VObj [("claim",
                                     VObj [("owner", VStr "5Alice")])])])
                    (VStr "5Alice") "5Alice" eq_refl eq_refl eq_refl)).
    reflexivity.
Defined.

(** The closing brace of the ciphertext is moved to the nonce: another
    envelope, and still accepted. *)
Lemma hash_ignores_message_nonce_boundary_witness :
  message (sent (submitAttestation "5Alice") alice bob now)
  <> message
       (last_character_shifted
          (sent (submitAttestation "5Alice") alice bob now))
  /\ accepts
       (outcome
          (ensureHashAndSignature
             (sent (submitAttestation "5Alice") alice bob now) "5Alice"))
     = true
  /\ accepts
       (outcome
          (ensureHashAndSignature
             (last_character_shifted
                (sent (submitAttestation "5Alice") alice bob now))
             "5Alice"))
     = true.
Proof.
  split; [vm_compute; discriminate |].
  assert (A : accepts
                (outcome
                   (ensureHashAndSignature
                      (sent (submitAttestation "5Alice") alice bob now)
                      "5Alice")) = true)
    by (vm_compute; reflexivity).
  split; [exact A |].
  rewrite <- A. symmetry.
  refine (proj2 (proj2
    (@hash_ignores_message_nonce_boundary dataUtils collaborators
       (sent (submitAttestation "5Alice") alice bob now)
       (last_character_shifted
          (sent (submitAttestation "5Alice") alice bob now))
       "5Alice" _ _ _ _))).
  - vm_compute; reflexivity.
  - reflexivity.
  - reflexivity.
  - reflexivity.
Defined.

(** Alice sends Bob an attestation that she owns, and Bob reads it. *)
Lemma structured_message_round_trip_witness :
  isArray (submitAttestation "5Alice") = false
  /\ exists m : IMessage,
       constructor (submitAttestation "5Alice") alice (publicIdentity bob)
         now = Ok m
       /\ outcome (decrypt (encrypt m) bob)
          = Ok {| body := submitAttestation "5Alice"; wire := encrypt m |}.
Proof.
  split; [reflexivity |].
  destruct (@structured_message_round_trip dataUtils collaborators
              (submitAttestation "5Alice") alice bob (publicIdentity bob)
              now eq_refl)
    as (m & Hc & Hrun).
  exists m. split; [exact Hc |].
  vm_compute in Hc. injection Hc as Hm.
  refine (proj1 (Hrun (submitAttestation "5Alice") _ _ _) _);
    try rewrite <- Hm.
  - vm_compute; reflexivity.
  - split; [vm_compute; reflexivity | vm_compute; discriminate].
  - vm_compute; reflexivity.
  - reflexivity.
Defined.

End RunsMore.
